(** * Scoring strategies of mastodon_digest (scorers.py)

    A shallow embedding of [scorers.py]: the two weighting classes, the
    four scoring classes composed from them by multiple inheritance, and
    the registry function [get_scorers].

    Numbers.  Python floats are idealised as real numbers ([R]): rounding
    is outside this model.  Integers read from a post are [Z], unbounded as
    Python's are; where the code hands one to a float or to a NumPy array
    the limits of those are kept, with the exception that passing them
    raises.

    Effects.  Every method runs in a small monad [Py] over the post
    record it is handed: field lookups and library calls can raise, and
    the record is threaded through every call. *)

From Stdlib Require Import ZArith Reals Lra Lia List.
From stdpp Require Import base option list gmap strings.

Local Open Scope string_scope.
Local Open Scope list_scope.

(** ** Post records

    [scored_post.info] is the dictionary decoded from the server's JSON
    answer.  Only the forms of JSON value the claims can tell apart are
    kept: integers, strings, null and nested dictionaries. *)

#[warnings="-register-all"]
Inductive json : Type :=
  | JNull
  | JInt (z : Z)
  | JStr (s : string)
  | JDict (d : gmap string json).

Record ScoredPost : Type := { info : gmap string json }.

(** ** Exceptions and the [Py] monad *)

Inductive exn : Type :=
  | KeyError (key : string)
  | TypeError
  | ValueError
  | ZeroDivisionError
  | OverflowError
  | AttributeError.

Inductive outcome (A : Type) : Type :=
  | Return (a : A)
  | Raise (e : exn).
Arguments Return {A} a.
Arguments Raise {A} e.

(** A computation receives the post record and gives back its outcome
    together with the record as the computation left it. *)
Definition Py (A : Type) : Type := ScoredPost -> outcome A * ScoredPost.

Definition ret {A} (a : A) : Py A := fun s => (Return a, s).

Definition raise {A} (e : exn) : Py A := fun s => (Raise e, s).

Definition bind {A B} (m : Py A) (k : A -> Py B) : Py B :=
  fun s =>
    match m s with
    | (Return a, s') => k a s'
    | (Raise e, s') => (Raise e, s')
    end.

Notation "'let*' x ':=' m 'in' k" := (bind m (fun x => k))
  (at level 10, x name, m at level 100, k at level 200).

(** [scored_post.info] *)
Definition get_info : Py (gmap string json) := fun s => (Return (info s), s).

(** The result of running a computation, and the record afterwards. *)
Definition result_of {A} (m : Py A) (p : ScoredPost) : outcome A := fst (m p).
Definition post_after {A} (m : Py A) (p : ScoredPost) : ScoredPost := snd (m p).

(** ** Python values and primitives used by the module *)

(** What [weight] and [score] return: [None] (the abstract methods, whose
    body is [pass]), a number, or the not-a-number a geometric mean of
    negative counters evaluates to. *)
Inductive pyval : Type :=
  | PyNone
  | PyNum (r : R)
  | PyNaN.

(** [d[key]] on the top-level dictionary. *)
Definition dict_getitem (d : gmap string json) (key : string) : Py json :=
  match d !! key with
  | Some v => ret v
  | None => raise (KeyError key)
  end.

(** [o[key]] on a value: only a dictionary can be indexed by a string. *)
Definition getitem (o : json) (key : string) : Py json :=
  match o with
  | JDict d => dict_getitem d key
  | _ => raise TypeError
  end.

(** [o == 0] *)
Definition eq_zero (o : json) : bool :=
  match o with
  | JInt z => (z =? 0)%Z
  | _ => false
  end.

(** The first integer that is too large to convert to a float.  The
    conversion rounds to the nearest float, ties to even; the largest
    float is [2^1024 - 2^971], and from halfway to [2^1024] on the
    rounding leaves the range. *)
Definition float_overflow : Z := 2 ^ 1024 - 2 ^ 970.

(** The integers, of either sign, that convert to a float. *)
Definition fits_float (z : Z) : bool := (Z.abs z <? float_overflow)%Z.

(** [math.sqrt(o)].  The argument is converted to a float first, an
    [OverflowError] when it does not fit; then a [ValueError] below zero.
    Off numbers, a [TypeError]. *)
Definition math_sqrt (o : json) : Py R :=
  match o with
  | JInt z =>
      if fits_float z
      then if (z <? 0)%Z then raise ValueError else ret (sqrt (IZR z))
      else raise OverflowError
  | _ => raise TypeError
  end.

(** [a / b] on floats. *)
Definition truediv (a b : R) : Py R :=
  if Req_dec_T b 0 then raise ZeroDivisionError else ret (a / b)%R.

(** [a * b] *)
Definition py_mul (a b : pyval) : Py pyval :=
  match a, b with
  | PyNone, _ | _, PyNone => raise TypeError
  | PyNaN, _ | _, PyNaN => ret PyNaN
  | PyNum x, PyNum y => ret (PyNum (x * y)%R)
  end.

(** *** The geometric mean *)

(** The non-negative [n]-th root of a non-negative real. *)
Definition nth_root (n : nat) (x : R) : R :=
  if Req_dec_T x 0 then 0%R else exp (ln x / INR n).

Definition product (vs : list R) : R := fold_right Rmult 1%R vs.

(** Modelled from the spec: [stats.gmean] belongs to SciPy and is not part
    of the repository.  Section 4.2 defines the geometric mean of [n]
    non-negative values as the [n]-th root of their product. *)
Definition geometric_mean (vs : list R) : R :=
  nth_root (length vs) (product vs).

Fixpoint as_ints (xs : list json) : option (list Z) :=
  match xs with
  | [] => Some []
  | JInt z :: xs' => match as_ints xs' with
                     | Some zs => Some (z :: zs)
                     | None => None
                     end
  | _ :: _ => None
  end.

(** The integers NumPy stores as numbers when it builds an array from a
    list: those of a signed or an unsigned 64-bit word.  A list with an
    integer outside becomes an array of Python objects. *)
Definition fits_numpy (z : Z) : bool := ((- 2 ^ 63 <=? z) && (z <? 2 ^ 64))%Z.

(** [stats.gmean(xs)] on a Python list.  Values that are not numbers, and
    integers NumPy keeps as objects, are a [TypeError] (of the logarithm
    applied to the array); below zero the logarithm, and with it the
    mean, is not-a-number. *)
Definition stats_gmean (xs : list json) : Py pyval :=
  match as_ints xs with
  | None => raise TypeError
  | Some zs =>
      if forallb fits_numpy zs
      then if forallb (fun z => (0 <=? z)%Z) zs
           then ret (PyNum (geometric_mean (map IZR zs)))
           else ret PyNaN
      else raise TypeError
  end.

(** ** Classes and method resolution order *)

(** The classes [scorers.py] has in scope, and [Derived name base] for a
    class that a further statement [class name(base)] would add without
    defining [weight] or [score] itself: [get_scorers] inspects the module
    as it is when called, whatever has been defined in it by then. *)
Inductive class : Type :=
  | object
  | ABC
  | Weight
  | UniformWeight
  | InverseFollowerWeight
  | Scorer
  | SimpleScorer
  | SimpleWeightedScorer
  | ExtendedSimpleScorer
  | ExtendedSimpleWeightedScorer
  | Derived (name : string) (base : class).

(** The classes written in [scorers.py] or imported by it. *)
Definition in_source (c : class) : bool :=
  match c with
  | Derived _ _ => false
  | _ => true
  end.

#[global] Instance class_eq_dec : EqDecision class.
Proof. solve_decision. Defined.

(** The base classes, as each [class] statement lists them. *)
Definition bases (c : class) : list class :=
  match c with
  | object => []
  | ABC => [object]
  | Weight => [ABC]
  | UniformWeight => [Weight]
  | InverseFollowerWeight => [Weight]
  | Scorer => [ABC]
  | SimpleScorer => [UniformWeight; Scorer]
  | SimpleWeightedScorer => [InverseFollowerWeight; SimpleScorer]
  | ExtendedSimpleScorer => [UniformWeight; Scorer]
  | ExtendedSimpleWeightedScorer => [InverseFollowerWeight; ExtendedSimpleScorer]
  | Derived _ base => [base]
  end.

(** Python's C3 linearisation. *)

Definition in_a_tail (c : class) (seqs : list (list class)) : bool :=
  existsb (fun s => bool_decide (c ∈ tail s)) seqs.

(** The first head that occurs in no tail. *)
Fixpoint c3_candidate (all seqs : list (list class)) : option class :=
  match seqs with
  | [] => None
  | [] :: rest => c3_candidate all rest
  | (c :: _) :: rest => if in_a_tail c all then c3_candidate all rest else Some c
  end.

Definition drop_head (c : class) (s : list class) : list class :=
  match s with
  | c' :: s' => if bool_decide (c' = c) then s' else s
  | [] => []
  end.

Definition nonempty (s : list class) : bool :=
  match s with [] => false | _ => true end.

Fixpoint c3_merge (fuel : nat) (seqs : list (list class)) : option (list class) :=
  match fuel with
  | O => None
  | S fuel' =>
      let seqs := filter (fun s => nonempty s = true) seqs in
      match seqs with
      | [] => Some []
      | _ =>
          match c3_candidate seqs seqs with
          | None => None
          | Some c =>
              match c3_merge fuel' (map (drop_head c) seqs) with
              | Some l => Some (c :: l)
              | None => None
              end
          end
      end
  end.

Fixpoint all_some {A} (l : list (option A)) : option (list A) :=
  match l with
  | [] => Some []
  | Some a :: l' => match all_some l' with Some r => Some (a :: r) | None => None end
  | None :: _ => None
  end.

Fixpoint linearise (depth : nat) (c : class) : option (list class) :=
  match depth with
  | O => None
  | S depth' =>
      match all_some (map (linearise depth') (bases c)) with
      | None => None
      | Some ls =>
          let seqs := ls ++ [bases c] in
          match c3_merge (S (length (concat seqs))) seqs with
          | Some l => Some (c :: l)
          | None => None
          end
      end
  end.

(** The longest chain of bases from a class of the source down to
    [object] has six classes; a derived class adds one. *)
Fixpoint height (c : class) : nat :=
  match c with
  | Derived _ base => S (height base)
  | _ => 6
  end.

(** [cls.__mro__] *)
Definition mro (c : class) : list class :=
  match linearise (height c) c with
  | Some l => l
  | None => []
  end.

(** [issubclass(c, b)] *)
Definition issubclass (c b : class) : bool := bool_decide (b ∈ mro c).


(** ** The weighting classes *)

(** [Weight.weight]: abstract, its body is [pass]. *)
Definition Weight_weight : Py pyval := ret PyNone.

(** [UniformWeight.weight] *)
Definition UniformWeight_weight : Py pyval := ret (PyNum 1).

(** [InverseFollowerWeight.weight] *)
Definition InverseFollowerWeight_weight : Py pyval :=
  let* d := get_info in
  let* account := dict_getitem d "account" in
  let* followers := getitem account "followers_count" in
  if eq_zero followers
  then ret (PyNum 0)
  else
    let* d' := get_info in
    let* account' := dict_getitem d' "account" in
    let* followers' := getitem account' "followers_count" in
    let* root := math_sqrt followers' in
    let* w := truediv 1 root in
    ret (PyNum w).

(** ** The scoring classes

    A method that calls [super()] receives what the call resolves to: the
    [score] and the [weight] found further down the method resolution
    order of the class the method was called on. *)

(** [Scorer.score]: abstract, its body is [pass]. *)
Definition Scorer_score : Py pyval := ret PyNone.

(** [SimpleScorer.score] *)
Definition SimpleScorer_score (super_weight : Py pyval) : Py pyval :=
  let* d := get_info in
  let* reblogs := dict_getitem d "reblogs_count" in
  let* d' := get_info in
  let* favourites := dict_getitem d' "favourites_count" in
  let* metric_average := stats_gmean [reblogs; favourites] in
  let* w := super_weight in
  py_mul metric_average w.

(** [SimpleWeightedScorer.score] *)
Definition SimpleWeightedScorer_score (super_score super_weight : Py pyval) : Py pyval :=
  let* s := super_score in
  let* w := super_weight in
  py_mul s w.

(** [ExtendedSimpleScorer.score] *)
Definition ExtendedSimpleScorer_score (super_weight : Py pyval) : Py pyval :=
  let* d := get_info in
  let* reblogs := dict_getitem d "reblogs_count" in
  let* d' := get_info in
  let* favourites := dict_getitem d' "favourites_count" in
  let* d'' := get_info in
  let* replies := dict_getitem d'' "replies_count" in
  let* metric_average := stats_gmean [reblogs; favourites; replies] in
  let* w := super_weight in
  py_mul metric_average w.

(** [ExtendedSimpleWeightedScorer.score] *)
Definition ExtendedSimpleWeightedScorer_score (super_score super_weight : Py pyval) : Py pyval :=
  let* s := super_score in
  let* w := super_weight in
  py_mul s w.

(** *** Attribute lookup along the method resolution order *)

(** The [weight] a class defines in its own body, if it does. *)
Definition own_weight (c : class) : option (Py pyval) :=
  match c with
  | Weight => Some Weight_weight
  | UniformWeight => Some UniformWeight_weight
  | InverseFollowerWeight => Some InverseFollowerWeight_weight
  | _ => None
  end.

(** The [score] a class defines in its own body, taking what its
    [super().score] and [super().weight] resolve to. *)
Definition own_score (c : class) : option (Py pyval -> Py pyval -> Py pyval) :=
  match c with
  | Scorer => Some (fun _ _ => Scorer_score)
  | SimpleScorer => Some (fun _ super_weight => SimpleScorer_score super_weight)
  | SimpleWeightedScorer => Some SimpleWeightedScorer_score
  | ExtendedSimpleScorer => Some (fun _ super_weight => ExtendedSimpleScorer_score super_weight)
  | ExtendedSimpleWeightedScorer => Some ExtendedSimpleWeightedScorer_score
  | _ => None
  end.

(** [weight] looked up from a position of the resolution order on. *)
Fixpoint find_weight (order : list class) : Py pyval :=
  match order with
  | [] => raise AttributeError
  | c :: rest =>
      match own_weight c with
      | Some m => m
      | None => find_weight rest
      end
  end.

(** [score] looked up from a position of the resolution order on; the
    method found has its [super()] bound to the rest of the order. *)
Fixpoint find_score (order : list class) : Py pyval :=
  match order with
  | [] => raise AttributeError
  | c :: rest =>
      match own_score c with
      | Some m => m (find_score rest) (find_weight rest)
      | None => find_score rest
      end
  end.

(** [cls.weight(scored_post)] and [cls.score(scored_post)] *)
Definition weight (cls : class) : Py pyval := find_weight (mro cls).
Definition score (cls : class) : Py pyval := find_score (mro cls).

(** ** The assumed data model

    A post satisfies the data model when the three engagement counters
    and the author's follower count are present and are non-negative
    integers, of any size.  [assumed_data_model] reads them off, or
    fails. *)

Record counters : Type := {
  reblogs_count : Z;
  favourites_count : Z;
  replies_count : Z;
  followers_count : Z
}.

Definition int_field (d : gmap string json) (key : string) : option Z :=
  match d !! key with
  | Some (JInt z) => Some z
  | _ => None
  end.

Definition account_field (d : gmap string json) (key : string) : option Z :=
  match d !! "account" with
  | Some (JDict a) => int_field a key
  | _ => None
  end.

Definition assumed_data_model (p : ScoredPost) : option counters :=
  match int_field (info p) "reblogs_count", int_field (info p) "favourites_count",
        int_field (info p) "replies_count", account_field (info p) "followers_count" with
  | Some r, Some f, Some y, Some n =>
      if ((0 <=? r) && (0 <=? f) && (0 <=? y) && (0 <=? n))%Z
      then Some {| reblogs_count := r; favourites_count := f;
                   replies_count := y; followers_count := n |}
      else None
  | _, _, _, _ => None
  end.

(** The counters of a post fit NumPy's integers: the two that every
    strategy aggregates, and all three. *)
Definition two_counters_fit (c : counters) : bool :=
  fits_numpy (reblogs_count c) && fits_numpy (favourites_count c).

Definition three_counters_fit (c : counters) : bool :=
  two_counters_fit c && fits_numpy (replies_count c).

(** The follower count converts to a float. *)
Definition followers_fit (c : counters) : bool := fits_float (followers_count c).

(** A post with the given counters and nothing else. *)
Definition post_of (r f y n : Z) : ScoredPost :=
  {| info := <["reblogs_count" := JInt r]>
             (<["favourites_count" := JInt f]>
             (<["replies_count" := JInt y]>
             (<["account" := JDict (<["followers_count" := JInt n]> ∅)]> ∅))) |}.

(** ** The registry *)

(** [s.replace(old, new)] for a non-empty [old]: occurrences are found
    left to right and do not overlap.  [skip] counts the characters of
    the occurrence just replaced that are still to be passed over. *)
Fixpoint replace_from (old new : string) (skip : nat) (s : string) : string :=
  match s with
  | EmptyString => EmptyString
  | String a s' =>
      match skip with
      | S k => replace_from old new k s'
      | O =>
          if String.prefix old s
          then new +:+ replace_from old new (String.length old - 1) s'
          else String a (replace_from old new 0 s')
      end
  end.

Definition str_replace (s old new : string) : string := replace_from old new 0 s.

(** A name bound in the module is bound to a class or to something else
    (a module, a function, a flag). *)
Inductive member : Type :=
  | AClass (c : class)
  | NotAClass.

#[global] Instance member_eq_dec : EqDecision member.
Proof. solve_decision. Defined.

(** The names [scorers.py] binds once it is imported.  [ScoredPost] is
    not among them: its import is guarded by [TYPE_CHECKING]. *)
Definition this_module : list (string * member) :=
  [ ("__name__", NotAClass); ("__doc__", NotAClass); ("__package__", NotAClass);
    ("__loader__", NotAClass); ("__spec__", NotAClass); ("__file__", NotAClass);
    ("__cached__", NotAClass); ("__builtins__", NotAClass);
    ("annotations", NotAClass);
    ("importlib", NotAClass);
    ("inspect", NotAClass);
    ("ABC", AClass ABC); ("abstractmethod", NotAClass);
    ("sqrt", NotAClass);
    ("TYPE_CHECKING", NotAClass);
    ("stats", NotAClass);
    ("Weight", AClass Weight);
    ("UniformWeight", AClass UniformWeight);
    ("InverseFollowerWeight", AClass InverseFollowerWeight);
    ("Scorer", AClass Scorer);
    ("SimpleScorer", AClass SimpleScorer);
    ("SimpleWeightedScorer", AClass SimpleWeightedScorer);
    ("ExtendedSimpleScorer", AClass ExtendedSimpleScorer);
    ("ExtendedSimpleWeightedScorer", AClass ExtendedSimpleWeightedScorer);
    ("get_scorers", NotAClass) ].

(** Sorting by name, as [inspect.getmembers] does. *)
Fixpoint insert_by_name {A} (x : string * A) (l : list (string * A)) : list (string * A) :=
  match l with
  | [] => [x]
  | y :: l' => if String.leb x.1 y.1 then x :: l else y :: insert_by_name x l'
  end.

Fixpoint sort_by_name {A} (l : list (string * A)) : list (string * A) :=
  match l with
  | [] => []
  | x :: l' => insert_by_name x (sort_by_name l')
  end.

(** [inspect.getmembers(module, inspect.isclass)] *)
Definition getmembers_isclass (module : list (string * member)) : list (string * class) :=
  omap (fun nm => match nm.2 with
                  | AClass c => Some (nm.1, c)
                  | NotAClass => None
                  end) (sort_by_name module).

(** The list [scorers] of [get_scorers]: the classes below [Scorer],
    [Scorer] itself left out. *)
Definition scorers_in (module : list (string * member)) : list (string * class) :=
  let all_classes := getmembers_isclass module in
  filter (fun c => c.2 ≠ Scorer ∧ issubclass c.2 Scorer = true) all_classes.

(** The dictionary comprehension of [get_scorers]: a later entry
    replaces an earlier one under the same key. *)
Definition registry_of (scorers : list (string * class)) : gmap string class :=
  foldl (fun d scorer => <[str_replace scorer.1 "Scorer" "" := scorer.2]> d) ∅ scorers.

(** [get_scorers], on the names the module binds when it is called. *)
Definition get_scorers_in (module : list (string * member)) : gmap string class :=
  registry_of (scorers_in module).

Definition get_scorers : gmap string class := get_scorers_in this_module.

(** ** Reference definitions, written after the specification *)

(** The inverse-follower weight as a function of the follower count. *)
Definition inverse_follower (n : Z) : R :=
  if (n =? 0)%Z then 0%R else (1 / sqrt (IZR n))%R.

(** What [InverseFollowerWeight.weight] comes to for an integer follower
    count, of either sign and any size. *)
Definition weight_outcome (n : Z) : outcome pyval :=
  if (n =? 0)%Z then Return (PyNum 0)
  else if fits_float n
       then if (n <? 0)%Z then Raise ValueError
            else Return (PyNum (1 / sqrt (IZR n)))
       else Raise OverflowError.

(** [s] ends in [suffix]. *)
Definition ends_with (s suffix : string) : bool :=
  (String.length suffix <=? String.length s)%nat
  && String.eqb (String.substring (String.length s - String.length suffix)
                           (String.length suffix) s) suffix.

(** The key as the specification words it: the name with a final
    "Scorer" removed, and the name itself when it does not end so. *)
Definition spec_remove_suffix (name : string) : string :=
  if ends_with name "Scorer"
  then String.substring 0 (String.length name - 6) name
  else name.

(** The geometric mean of the two, and of the three, engagement counters. *)
Definition mean2 (c : counters) : R :=
  geometric_mean [IZR (reblogs_count c); IZR (favourites_count c)].

Definition mean3 (c : counters) : R :=
  geometric_mean [IZR (reblogs_count c); IZR (favourites_count c);
                  IZR (replies_count c)].

(** The example post of the specification's worked examples. *)
Definition example_counters : counters :=
  {| reblogs_count := 4; favourites_count := 9;
     replies_count := 16; followers_count := 100 |}.

Definition example_post : ScoredPost := post_of 4 9 16 100.

(** Posts of the data model with an integer beyond what a float, or a
    NumPy array of numbers, holds. *)
Definition post_with_huge_following : ScoredPost := post_of 4 9 16 (2 ^ 1024).

Definition post_with_huge_counter : ScoredPost := post_of (2 ^ 64) 9 16 100.

(** A computation that hands the post record back as it received it. *)
Definition leaves_post_unchanged {A} (m : Py A) : Prop :=
  forall p : ScoredPost, post_after m p = p.

(** The key [get_scorers] files a name under. *)
Definition registry_key (name : string) : string := str_replace name "Scorer" "".

(** [class ScorerLite(SimpleScorer)]: one more scoring class, whose name
    starts with "Scorer" instead of ending with it. *)
Definition ScorerLite : class := Derived "ScorerLite" SimpleScorer.

(** The module after that class has been defined in it. *)
Definition module_with_ScorerLite : list (string * member) :=
  this_module ++ [("ScorerLite", AClass ScorerLite)].

(** [old] occurs in [s]. *)
Definition occurs_in (old s : string) : Prop :=
  exists pre post : string, s = pre +:+ old +:+ post.

(** Unfolds a call of [score] or [weight] on a known class to the method
    the resolution order selects. *)
Ltac resolve_mro :=
  unfold score, weight, mro;
  repeat match goal with
         | |- context [linearise (height ?c) ?c] =>
             let l := eval vm_compute in (linearise (height c) c) in
             change (linearise (height c) c) with l
         end;
  cbn [find_score find_weight own_score own_weight].

(** * Properties *)

(** ** Method resolution orders *)

Lemma mro_SimpleScorer :
  mro SimpleScorer = [SimpleScorer; UniformWeight; Weight; Scorer; ABC; object].
Proof. vm_compute. reflexivity. Qed.

Lemma mro_SimpleWeightedScorer :
  mro SimpleWeightedScorer =
  [SimpleWeightedScorer; InverseFollowerWeight; SimpleScorer; UniformWeight;
   Weight; Scorer; ABC; object].
Proof. vm_compute. reflexivity. Qed.

Lemma mro_ExtendedSimpleScorer :
  mro ExtendedSimpleScorer =
  [ExtendedSimpleScorer; UniformWeight; Weight; Scorer; ABC; object].
Proof. vm_compute. reflexivity. Qed.

Lemma mro_ExtendedSimpleWeightedScorer :
  mro ExtendedSimpleWeightedScorer =
  [ExtendedSimpleWeightedScorer; InverseFollowerWeight; ExtendedSimpleScorer;
   UniformWeight; Weight; Scorer; ABC; object].
Proof. vm_compute. reflexivity. Qed.

(** ** Real-number facts: roots and the geometric mean *)

Section roots.
Local Open Scope R_scope.

Lemma exp_pow (a : R) (n : nat) : exp a ^ n = exp (INR n * a).
Proof.
  rewrite <- Rpower_pow by apply exp_pos.
  unfold Rpower. now rewrite ln_exp.
Qed.

Lemma nth_root_0 (n : nat) : nth_root n 0 = 0.
Proof. unfold nth_root. destruct (Req_dec_T 0 0); [reflexivity | contradiction]. Qed.

Lemma nth_root_nonneg (n : nat) (x : R) : 0 <= nth_root n x.
Proof.
  unfold nth_root. destruct (Req_dec_T x 0).
  - apply Rle_refl.
  - left. apply exp_pos.
Qed.

Lemma nth_root_pow (n : nat) (x : R) :
  (0 < n)%nat -> 0 <= x -> nth_root n x ^ n = x.
Proof.
  intros Hn Hx. unfold nth_root. destruct (Req_dec_T x 0) as [-> | Hx0].
  - apply pow_i. exact Hn.
  - rewrite exp_pow.
    replace (INR n * (ln x / INR n)) with (ln x).
    + apply exp_ln. lra.
    + field. apply not_0_INR. lia.
Qed.

(** The root is the only non-negative solution of [y ^ n = x]. *)
Lemma nth_root_unique (n : nat) (x y : R) :
  (0 < n)%nat -> 0 <= y -> y ^ n = x -> nth_root n x = y.
Proof.
  intros Hn Hy Hpow. unfold nth_root.
  destruct (Req_dec_T x 0) as [Hx0 | Hx0].
  - destruct (Req_dec_T y 0) as [Hy0 | Hy0]; [now symmetry |].
    exfalso. apply (pow_nonzero y n) in Hy0. congruence.
  - assert (0 < y) as Hpos.
    { destruct Hy as [Hy | <-]; [exact Hy |].
      exfalso. apply Hx0. rewrite <- Hpow. apply pow_i. exact Hn. }
    rewrite <- Hpow, ln_pow by exact Hpos.
    replace (INR n * ln y / INR n) with (ln y).
    + apply exp_ln. exact Hpos.
    + field. apply not_0_INR. lia.
Qed.

Lemma product_nonneg (vs : list R) : Forall (fun v => 0 <= v) vs -> 0 <= product vs.
Proof.
  induction 1 as [| v vs Hv _ IH]; simpl.
  - lra.
  - apply Rmult_le_pos; assumption.
Qed.

Lemma product_zero (vs : list R) : In 0 vs -> product vs = 0.
Proof.
  induction vs as [| v vs IH]; simpl; [tauto |].
  intros [-> | Hin].
  - apply Rmult_0_l.
  - rewrite IH by exact Hin. apply Rmult_0_r.
Qed.

Lemma geometric_mean_nonneg (vs : list R) : 0 <= geometric_mean vs.
Proof. apply nth_root_nonneg. Qed.

Lemma geometric_mean_zero (vs : list R) : In 0 vs -> geometric_mean vs = 0.
Proof.
  intros Hin. unfold geometric_mean. rewrite product_zero by exact Hin.
  apply nth_root_0.
Qed.

(** The defining equation of section 4.2: raised to the number of
    values, the mean gives back their product. *)
Lemma geometric_mean_pow (vs : list R) :
  vs <> [] -> Forall (fun v => 0 <= v) vs ->
  geometric_mean vs ^ length vs = product vs.
Proof.
  intros Hne Hpos. unfold geometric_mean. apply nth_root_pow.
  - destruct vs; [contradiction | simpl; lia].
  - apply product_nonneg. exact Hpos.
Qed.

Lemma sqrt_pos_int (n : Z) : (0 < n)%Z -> 1 <= sqrt (IZR n).
Proof.
  intros Hn. rewrite <- sqrt_1. apply sqrt_le_1_alt.
  apply IZR_le. lia.
Qed.
End roots.

(** ** Running the methods on a post of the data model *)

Lemma data_model_fields (p : ScoredPost) (c : counters) :
  assumed_data_model p = Some c ->
  info p !! "reblogs_count" = Some (JInt (reblogs_count c)) /\
  info p !! "favourites_count" = Some (JInt (favourites_count c)) /\
  info p !! "replies_count" = Some (JInt (replies_count c)) /\
  (exists a : gmap string json,
      info p !! "account" = Some (JDict a) /\
      a !! "followers_count" = Some (JInt (followers_count c))) /\
  (0 <= reblogs_count c)%Z /\ (0 <= favourites_count c)%Z /\
  (0 <= replies_count c)%Z /\ (0 <= followers_count c)%Z.
Proof.
  unfold assumed_data_model, account_field, int_field.
  intros H. repeat case_match; simplify_eq; simpl.
  repeat match goal with
         | H : _ && _ = true |- _ => apply andb_prop in H; destruct H
         | H : (_ <=? _)%Z = true |- _ => apply Z.leb_le in H
         end.
  repeat split; eauto.
Qed.

Lemma run_UniformWeight (p : ScoredPost) :
  UniformWeight_weight p = (Return (PyNum 1), p).
Proof. reflexivity. Qed.

(** The inverse-follower weight, whatever integer the follower count is. *)
Lemma run_InverseFollowerWeight_int (p : ScoredPost) (a : gmap string json) (n : Z) :
  info p !! "account" = Some (JDict a) ->
  a !! "followers_count" = Some (JInt n) ->
  InverseFollowerWeight_weight p = (weight_outcome n, p).
Proof.
  intros Ha Hn. unfold InverseFollowerWeight_weight, weight_outcome.
  cbv [bind get_info dict_getitem getitem ret]. rewrite Ha.
  cbv [getitem dict_getitem ret]. rewrite Hn. cbv [eq_zero ret].
  destruct (n =? 0)%Z eqn:Hz; [reflexivity |].
  rewrite Ha, Hn. cbv [math_sqrt ret raise].
  destruct (fits_float n); [| reflexivity].
  destruct (n <? 0)%Z eqn:Hneg; [reflexivity |].
  apply Z.eqb_neq in Hz. apply Z.ltb_ge in Hneg.
  cbv [truediv].
  destruct (Req_dec_T (sqrt (IZR n)) 0) as [Hs | Hs]; [| reflexivity].
  exfalso. pose proof (sqrt_pos_int n ltac:(lia)). lra.
Qed.

Lemma weight_outcome_nonneg (n : Z) :
  (0 <= n)%Z ->
  weight_outcome n =
  if fits_float n then Return (PyNum (inverse_follower n)) else Raise OverflowError.
Proof.
  intros Hn. unfold weight_outcome, inverse_follower.
  destruct (n =? 0)%Z eqn:Hz.
  - apply Z.eqb_eq in Hz. subst n. reflexivity.
  - destruct (fits_float n); [| reflexivity].
    destruct (n <? 0)%Z eqn:Hneg; [apply Z.ltb_lt in Hneg; lia | reflexivity].
Qed.

Lemma run_InverseFollowerWeight (p : ScoredPost) (c : counters) :
  assumed_data_model p = Some c ->
  InverseFollowerWeight_weight p =
  (if followers_fit c then Return (PyNum (inverse_follower (followers_count c)))
   else Raise OverflowError, p).
Proof.
  intros H. apply data_model_fields in H.
  destruct H as (_ & _ & _ & (a & Ha & Hn) & _ & _ & _ & Hpos).
  rewrite (run_InverseFollowerWeight_int p a _ Ha Hn).
  now rewrite weight_outcome_nonneg.
Qed.

Lemma as_ints_map (zs : list Z) : as_ints (map JInt zs) = Some zs.
Proof. induction zs as [| z zs IH]; simpl; [reflexivity | now rewrite IH]. Qed.

Lemma run_stats_gmean (zs : list Z) (p : ScoredPost) :
  Forall (fun z => (0 <= z)%Z) zs ->
  stats_gmean (map JInt zs) p =
  (if forallb fits_numpy zs then Return (PyNum (geometric_mean (map IZR zs)))
   else Raise TypeError, p).
Proof.
  intros Hpos. unfold stats_gmean. rewrite as_ints_map.
  destruct (forallb fits_numpy zs); [| reflexivity].
  assert (forallb (fun z => (0 <=? z)%Z) zs = true) as ->; [| reflexivity].
  apply forallb_forall. intros z Hz.
  apply Z.leb_le. rewrite Forall_forall in Hpos. apply Hpos.
  now apply list_elem_of_In.
Qed.

(** *** What [super()] resolves to *)

Lemma weight_UniformWeight : weight UniformWeight = UniformWeight_weight.
Proof. resolve_mro. reflexivity. Qed.

Lemma weight_InverseFollowerWeight :
  weight InverseFollowerWeight = InverseFollowerWeight_weight.
Proof. resolve_mro. reflexivity. Qed.

Lemma score_SimpleScorer :
  score SimpleScorer = SimpleScorer_score (weight UniformWeight).
Proof. resolve_mro. reflexivity. Qed.

Lemma score_ExtendedSimpleScorer :
  score ExtendedSimpleScorer = ExtendedSimpleScorer_score (weight UniformWeight).
Proof. resolve_mro. reflexivity. Qed.

(** In [SimpleWeightedScorer.score], [super().score] is
    [SimpleScorer.score] with its own [super().weight] still the uniform
    one, and [super().weight] is the inverse-follower one. *)
Lemma score_SimpleWeightedScorer :
  score SimpleWeightedScorer =
  SimpleWeightedScorer_score (score SimpleScorer) (weight InverseFollowerWeight).
Proof. resolve_mro. reflexivity. Qed.

Lemma score_ExtendedSimpleWeightedScorer :
  score ExtendedSimpleWeightedScorer =
  ExtendedSimpleWeightedScorer_score (score ExtendedSimpleScorer)
                                     (weight InverseFollowerWeight).
Proof. resolve_mro. reflexivity. Qed.

(** *** The four scores *)

Lemma run_SimpleScorer_fields (p : ScoredPost) (r f : Z) :
  info p !! "reblogs_count" = Some (JInt r) ->
  info p !! "favourites_count" = Some (JInt f) ->
  (0 <= r)%Z -> (0 <= f)%Z ->
  score SimpleScorer p =
  (if fits_numpy r && fits_numpy f
   then Return (PyNum (geometric_mean [IZR r; IZR f] * 1))
   else Raise TypeError, p).
Proof.
  intros Hr Hf Hr0 Hf0.
  rewrite score_SimpleScorer, weight_UniformWeight.
  unfold SimpleScorer_score.
  cbv [bind get_info dict_getitem ret]. rewrite Hr, Hf.
  change [JInt r; JInt f] with (map JInt [r; f]).
  rewrite run_stats_gmean by (repeat constructor; assumption).
  cbn [forallb]. rewrite andb_true_r.
  now destruct (fits_numpy r && fits_numpy f).
Qed.

Lemma run_ExtendedSimpleScorer_fields (p : ScoredPost) (r f y : Z) :
  info p !! "reblogs_count" = Some (JInt r) ->
  info p !! "favourites_count" = Some (JInt f) ->
  info p !! "replies_count" = Some (JInt y) ->
  (0 <= r)%Z -> (0 <= f)%Z -> (0 <= y)%Z ->
  score ExtendedSimpleScorer p =
  (if fits_numpy r && fits_numpy f && fits_numpy y
   then Return (PyNum (geometric_mean [IZR r; IZR f; IZR y] * 1))
   else Raise TypeError, p).
Proof.
  intros Hr Hf Hy Hr0 Hf0 Hy0.
  rewrite score_ExtendedSimpleScorer, weight_UniformWeight.
  unfold ExtendedSimpleScorer_score.
  cbv [bind get_info dict_getitem ret]. rewrite Hr, Hf, Hy.
  change [JInt r; JInt f; JInt y] with (map JInt [r; f; y]).
  rewrite run_stats_gmean by (repeat constructor; assumption).
  cbn [forallb]. rewrite andb_true_r, andb_assoc.
  now destruct (fits_numpy r && fits_numpy f && fits_numpy y).
Qed.

Lemma run_SimpleScorer (p : ScoredPost) (c : counters) :
  assumed_data_model p = Some c ->
  score SimpleScorer p =
  (if two_counters_fit c then Return (PyNum (mean2 c * 1)) else Raise TypeError, p).
Proof.
  intros H. apply data_model_fields in H.
  destruct H as (Hr & Hf & _ & _ & Hr0 & Hf0 & _ & _).
  now apply run_SimpleScorer_fields.
Qed.

Lemma run_ExtendedSimpleScorer (p : ScoredPost) (c : counters) :
  assumed_data_model p = Some c ->
  score ExtendedSimpleScorer p =
  (if three_counters_fit c then Return (PyNum (mean3 c * 1)) else Raise TypeError, p).
Proof.
  intros H. apply data_model_fields in H.
  destruct H as (Hr & Hf & Hy & _ & Hr0 & Hf0 & Hy0 & _).
  now apply run_ExtendedSimpleScorer_fields.
Qed.

Lemma run_SimpleWeightedScorer (p : ScoredPost) (c : counters) :
  assumed_data_model p = Some c ->
  score SimpleWeightedScorer p =
  (if two_counters_fit c
   then if followers_fit c
        then Return (PyNum (mean2 c * 1 * inverse_follower (followers_count c)))
        else Raise OverflowError
   else Raise TypeError, p).
Proof.
  intros H. rewrite score_SimpleWeightedScorer, weight_InverseFollowerWeight.
  unfold SimpleWeightedScorer_score. cbv [bind].
  rewrite (run_SimpleScorer p c H).
  destruct (two_counters_fit c); [| reflexivity].
  rewrite (run_InverseFollowerWeight p c H).
  now destruct (followers_fit c).
Qed.

Lemma run_ExtendedSimpleWeightedScorer (p : ScoredPost) (c : counters) :
  assumed_data_model p = Some c ->
  score ExtendedSimpleWeightedScorer p =
  (if three_counters_fit c
   then if followers_fit c
        then Return (PyNum (mean3 c * 1 * inverse_follower (followers_count c)))
        else Raise OverflowError
   else Raise TypeError, p).
Proof.
  intros H. rewrite score_ExtendedSimpleWeightedScorer, weight_InverseFollowerWeight.
  unfold ExtendedSimpleWeightedScorer_score. cbv [bind].
  rewrite (run_ExtendedSimpleScorer p c H).
  destruct (three_counters_fit c); [| reflexivity].
  rewrite (run_InverseFollowerWeight p c H).
  now destruct (followers_fit c).
Qed.

Lemma inverse_follower_range (n : Z) :
  (0 <= n)%Z -> (0 <= inverse_follower n <= 1)%R.
Proof.
  intros Hn. unfold inverse_follower.
  destruct (n =? 0)%Z eqn:Hz; [lra |].
  apply Z.eqb_neq in Hz.
  pose proof (sqrt_pos_int n ltac:(lia)) as Hs.
  split.
  - apply Rlt_le, Rdiv_lt_0_compat; lra.
  - apply (Rmult_le_reg_r (sqrt (IZR n))); [lra |].
    unfold Rdiv. rewrite Rmult_assoc, Rinv_l by lra. lra.
Qed.

Lemma example_post_in_model : assumed_data_model example_post = Some example_counters.
Proof. vm_compute. reflexivity. Qed.

(** ** Integers in range *)

Lemma fits_float_0 : fits_float 0 = true.
Proof. vm_compute. reflexivity. Qed.

Lemma fits_float_le (a b : Z) :
  (0 <= a <= b)%Z -> fits_float b = true -> fits_float a = true.
Proof. unfold fits_float. rewrite !Z.ltb_lt. lia. Qed.

Lemma fits_numpy_le (a b : Z) :
  (0 <= a <= b)%Z -> fits_numpy b = true -> fits_numpy a = true.
Proof.
  unfold fits_numpy. rewrite !andb_true_iff, !Z.leb_le, !Z.ltb_lt. lia.
Qed.

Lemma fits_numpy_below (z : Z) : (0 <= z < 2 ^ 64)%Z -> fits_numpy z = true.
Proof.
  unfold fits_numpy. rewrite andb_true_iff, Z.leb_le, Z.ltb_lt. lia.
Qed.

Lemma huge_following_in_model :
  assumed_data_model post_with_huge_following =
  Some {| reblogs_count := 4; favourites_count := 9;
          replies_count := 16; followers_count := 2 ^ 1024 |}.
Proof. vm_compute. reflexivity. Qed.

Lemma huge_counter_in_model :
  assumed_data_model post_with_huge_counter =
  Some {| reblogs_count := 2 ^ 64; favourites_count := 9;
          replies_count := 16; followers_count := 100 |}.
Proof. vm_compute. reflexivity. Qed.

(** ** Claims about the weights *)

(** C7. [UniformWeight.weight] returns 1 on every post, whatever its
    fields hold, and leaves the post as it was. *)
Theorem UniformWeight_weight_is_1 (p : ScoredPost) :
  weight UniformWeight p = (Return (PyNum 1), p).
Proof. rewrite weight_UniformWeight. apply run_UniformWeight. Qed.

(** The claim C2 as it stands fails: a post of the data model with
    [2^1024] followers gets no weight, the conversion of the count to a
    float raising [OverflowError]. *)
Lemma weight_of_huge_following_overflows :
  (exists c : counters,
      assumed_data_model post_with_huge_following = Some c /\
      (0 < followers_count c)%Z) /\
  result_of (weight InverseFollowerWeight) post_with_huge_following =
  Raise OverflowError.
Proof.
  split.
  - eexists. split; [apply huge_following_in_model | reflexivity].
  - unfold result_of.
    rewrite weight_InverseFollowerWeight,
      (run_InverseFollowerWeight _ _ huge_following_in_model).
    reflexivity.
Qed.

(** C2, amended. On a post of the data model,
    [InverseFollowerWeight.weight] returns 0 for an author without
    followers and [1 / sqrt n] for an author with [n > 0] followers, as
    long as [n] converts to a float ([n < 2^1024 - 2^970]); beyond, it
    raises [OverflowError]. *)
Theorem InverseFollowerWeight_weight_value (p : ScoredPost) (c : counters) :
  assumed_data_model p = Some c ->
  (followers_count c = 0%Z ->
   result_of (weight InverseFollowerWeight) p = Return (PyNum 0)) /\
  ((0 < followers_count c < float_overflow)%Z ->
   result_of (weight InverseFollowerWeight) p =
   Return (PyNum (1 / sqrt (IZR (followers_count c))))) /\
  ((float_overflow <= followers_count c)%Z ->
   result_of (weight InverseFollowerWeight) p = Raise OverflowError).
Proof.
  intros H. unfold result_of.
  rewrite weight_InverseFollowerWeight, (run_InverseFollowerWeight p c H).
  unfold followers_fit, fits_float, inverse_follower. repeat split; intros Hn; simpl.
  - rewrite Hn. reflexivity.
  - destruct (Z.ltb_spec (Z.abs (followers_count c)) float_overflow); [| lia].
    destruct (followers_count c =? 0)%Z eqn:Hz; [| reflexivity].
    apply Z.eqb_eq in Hz. lia.
  - assert (0 < float_overflow)%Z by (vm_compute; reflexivity).
    destruct (Z.ltb_spec (Z.abs (followers_count c)) float_overflow); [lia |].
    reflexivity.
Qed.

Lemma InverseFollowerWeight_weight_value_witness :
  result_of (weight InverseFollowerWeight) example_post =
  Return (PyNum (1 / sqrt (IZR 100))).
Proof.
  apply (InverseFollowerWeight_weight_value example_post example_counters).
  - vm_compute. reflexivity.
  - vm_compute. split; reflexivity.
Defined.

(** ** Claims about the scores *)

(** The claim C6 as it stands fails: with [2^64] reblogs, a non-negative
    integer, neither unweighted strategy returns a mean; the geometric
    mean of the library raises [TypeError]. *)
Lemma unweighted_score_of_huge_counter_raises :
  (exists c : counters, assumed_data_model post_with_huge_counter = Some c) /\
  result_of (score SimpleScorer) post_with_huge_counter = Raise TypeError /\
  result_of (score ExtendedSimpleScorer) post_with_huge_counter = Raise TypeError.
Proof.
  split; [eexists; apply huge_counter_in_model |].
  unfold result_of.
  rewrite (run_SimpleScorer _ _ huge_counter_in_model),
    (run_ExtendedSimpleScorer _ _ huge_counter_in_model).
  split; reflexivity.
Qed.

(** C6, amended. On a post of the data model whose counters are below
    [2^64], the unweighted strategies return the bare geometric mean of
    their counters: of reblogs and favourites for [SimpleScorer], of
    reblogs, favourites and replies for [ExtendedSimpleScorer].  That
    mean is the non-negative root of the product of the counters; for the
    counters 4, 9 and 16 it is the cube root of 576, which is 8.3203 to
    four decimals. *)
Theorem unweighted_score_is_geometric_mean (p : ScoredPost) (c : counters) :
  assumed_data_model p = Some c ->
  let r := IZR (reblogs_count c) in
  let f := IZR (favourites_count c) in
  let y := IZR (replies_count c) in
  (two_counters_fit c = true ->
   result_of (score SimpleScorer) p = Return (PyNum (geometric_mean [r; f]))) /\
  (three_counters_fit c = true ->
   result_of (score ExtendedSimpleScorer) p =
   Return (PyNum (geometric_mean [r; f; y]))) /\
  (0 <= geometric_mean [r; f] /\ geometric_mean [r; f] ^ 2 = r * f)%R /\
  (0 <= geometric_mean [r; f; y] /\ geometric_mean [r; f; y] ^ 3 = r * f * y)%R /\
  ((reblogs_count c = 4 /\ favourites_count c = 9 /\ replies_count c = 16)%Z ->
   exists x : R,
     result_of (score ExtendedSimpleScorer) p = Return (PyNum x) /\
     (x ^ 3 = 576 /\ Rabs (x - 8.3203) < 0.0001)%R).
Proof.
  intros H r f y.
  pose proof (data_model_fields p c H) as (_ & _ & _ & _ & Hr & Hf & Hy & _).
  apply IZR_le in Hr, Hf, Hy. fold r in Hr. fold f in Hf. fold y in Hy.
  assert (two_counters_fit c = true ->
          result_of (score SimpleScorer) p = Return (PyNum (geometric_mean [r; f])))
    as H2.
  { intros Hfit. unfold result_of. rewrite (run_SimpleScorer p c H), Hfit.
    unfold mean2. simpl. now rewrite Rmult_1_r. }
  assert (three_counters_fit c = true ->
          result_of (score ExtendedSimpleScorer) p =
          Return (PyNum (geometric_mean [r; f; y]))) as H3.
  { intros Hfit. unfold result_of. rewrite (run_ExtendedSimpleScorer p c H), Hfit.
    unfold mean3. simpl. now rewrite Rmult_1_r. }
  assert (geometric_mean [r; f] ^ 2 = r * f)%R as P2.
  { change 2%nat with (length [r; f]). rewrite geometric_mean_pow.
    - simpl. lra.
    - discriminate.
    - repeat (apply Forall_cons_2; [assumption |]). apply Forall_nil_2. }
  assert (geometric_mean [r; f; y] ^ 3 = r * f * y)%R as P3.
  { change 3%nat with (length [r; f; y]). rewrite geometric_mean_pow.
    - simpl. lra.
    - discriminate.
    - repeat (apply Forall_cons_2; [assumption |]). apply Forall_nil_2. }
  repeat split; try assumption; try apply geometric_mean_nonneg.
  intros (Er & Ef & Ey). exists (geometric_mean [r; f; y]).
  split.
  { apply H3. unfold three_counters_fit, two_counters_fit.
    rewrite Er, Ef, Ey. reflexivity. }
  pose proof (geometric_mean_nonneg [r; f; y]) as Hx.
  set (x := geometric_mean [r; f; y]) in *.
  assert (x ^ 3 = 576)%R as Hcube.
  { rewrite P3. subst r f y. rewrite Er, Ef, Ey. lra. }
  split; [exact Hcube |].
  apply Rabs_def1.
  - apply Rnot_le_lt. intros Hge.
    assert (8.3204 ^ 3 <= x ^ 3)%R as Hc by (apply pow_incr; lra).
    rewrite Hcube in Hc. simpl in Hc. lra.
  - apply Rnot_le_lt. intros Hle.
    assert (x ^ 3 <= 8.3202 ^ 3)%R as Hc by (apply pow_incr; lra).
    rewrite Hcube in Hc. simpl in Hc. lra.
Qed.

Lemma unweighted_score_is_geometric_mean_witness :
  exists x : R,
    result_of (score ExtendedSimpleScorer) (post_of 4 9 16 0) = Return (PyNum x) /\
    (x ^ 3 = 576 /\ Rabs (x - 8.3203) < 0.0001)%R.
Proof.
  apply (unweighted_score_is_geometric_mean (post_of 4 9 16 0)
           {| reblogs_count := 4; favourites_count := 9;
              replies_count := 16; followers_count := 0 |}).
  - vm_compute. reflexivity.
  - simpl. repeat split; reflexivity.
Defined.

(** The claim C1 as it stands fails: on a post of the data model with
    [2^64] reblogs the inverse-follower weight is a number, yet neither
    weighted strategy returns a product of it: both raise [TypeError]. *)
Lemma weighted_score_of_huge_counter_raises :
  (exists c : counters, assumed_data_model post_with_huge_counter = Some c) /\
  (exists w : R,
      result_of (weight InverseFollowerWeight) post_with_huge_counter =
      Return (PyNum w)) /\
  result_of (score SimpleWeightedScorer) post_with_huge_counter = Raise TypeError /\
  result_of (score ExtendedSimpleWeightedScorer) post_with_huge_counter =
  Raise TypeError.
Proof.
  split; [eexists; apply huge_counter_in_model |].
  unfold result_of.
  rewrite weight_InverseFollowerWeight,
    (run_InverseFollowerWeight _ _ huge_counter_in_model),
    (run_SimpleWeightedScorer _ _ huge_counter_in_model),
    (run_ExtendedSimpleWeightedScorer _ _ huge_counter_in_model).
  split; [eexists; reflexivity | split; reflexivity].
Qed.

(** C1, amended. On a post of the data model whose follower count
    converts to a float and whose counters are below [2^64], each
    weighted strategy is the geometric mean of its counters times the
    inverse-follower weight of the post, once: the only other factor is
    the uniform weight 1 that the unweighted [score] it builds on
    multiplies in. *)
Theorem weighted_score_applies_inverse_weight_once (p : ScoredPost) (c : counters) :
  assumed_data_model p = Some c ->
  followers_fit c = true ->
  let r := IZR (reblogs_count c) in
  let f := IZR (favourites_count c) in
  let y := IZR (replies_count c) in
  exists w : R,
    result_of (weight InverseFollowerWeight) p = Return (PyNum w) /\
    (two_counters_fit c = true ->
     result_of (score SimpleWeightedScorer) p =
       Return (PyNum (geometric_mean [r; f] * 1 * w)) /\
     result_of (score SimpleWeightedScorer) p =
       Return (PyNum (geometric_mean [r; f] * w))) /\
    (three_counters_fit c = true ->
     result_of (score ExtendedSimpleWeightedScorer) p =
       Return (PyNum (geometric_mean [r; f; y] * 1 * w)) /\
     result_of (score ExtendedSimpleWeightedScorer) p =
       Return (PyNum (geometric_mean [r; f; y] * w))).
Proof.
  intros H Hn r f y. exists (inverse_follower (followers_count c)).
  unfold result_of.
  rewrite weight_InverseFollowerWeight, (run_InverseFollowerWeight p c H).
  rewrite (run_SimpleWeightedScorer p c H), (run_ExtendedSimpleWeightedScorer p c H).
  rewrite Hn. unfold mean2, mean3. fold r f y. simpl.
  split; [reflexivity |].
  split; intros ->; simpl; rewrite ?Rmult_1_r; split; reflexivity.
Qed.

Lemma weighted_score_applies_inverse_weight_once_witness :
  exists w : R,
    result_of (weight InverseFollowerWeight) example_post = Return (PyNum w) /\
    (two_counters_fit example_counters = true ->
     result_of (score SimpleWeightedScorer) example_post =
       Return (PyNum (geometric_mean [4; 9]%R * 1 * w)) /\
     result_of (score SimpleWeightedScorer) example_post =
       Return (PyNum (geometric_mean [4; 9]%R * w))) /\
    (three_counters_fit example_counters = true ->
     result_of (score ExtendedSimpleWeightedScorer) example_post =
       Return (PyNum (geometric_mean [4; 9; 16]%R * 1 * w)) /\
     result_of (score ExtendedSimpleWeightedScorer) example_post =
       Return (PyNum (geometric_mean [4; 9; 16]%R * w))).
Proof.
  apply (weighted_score_applies_inverse_weight_once example_post example_counters).
  - vm_compute. reflexivity.
  - vm_compute. reflexivity.
Defined.

Lemma mean2_zero (c : counters) :
  (reblogs_count c = 0 \/ favourites_count c = 0)%Z -> mean2 c = 0%R.
Proof.
  intros Hz. apply geometric_mean_zero. simpl.
  destruct Hz as [-> | ->]; auto.
Qed.

Lemma mean3_zero (c : counters) :
  (reblogs_count c = 0 \/ favourites_count c = 0 \/ replies_count c = 0)%Z ->
  mean3 c = 0%R.
Proof.
  intros Hz. apply geometric_mean_zero. simpl.
  destruct Hz as [-> | [-> | ->]]; auto.
Qed.

(** The claim C3 as it stands fails: a post of the data model with no
    favourites and [2^64] reblogs does not score 0; the strategies raise
    [TypeError]. *)
Lemma zero_counter_beside_huge_counter_raises :
  assumed_data_model (post_of (2 ^ 64) 0 1 1) =
    Some {| reblogs_count := 2 ^ 64; favourites_count := 0;
            replies_count := 1; followers_count := 1 |} /\
  result_of (score SimpleScorer) (post_of (2 ^ 64) 0 1 1) = Raise TypeError /\
  result_of (score SimpleWeightedScorer) (post_of (2 ^ 64) 0 1 1) = Raise TypeError /\
  result_of (score ExtendedSimpleScorer) (post_of (2 ^ 64) 0 1 1) = Raise TypeError /\
  result_of (score ExtendedSimpleWeightedScorer) (post_of (2 ^ 64) 0 1 1) =
  Raise TypeError.
Proof.
  assert (assumed_data_model (post_of (2 ^ 64) 0 1 1) =
          Some {| reblogs_count := 2 ^ 64; favourites_count := 0;
                  replies_count := 1; followers_count := 1 |}) as H
      by (vm_compute; reflexivity).
  split; [exact H |]. unfold result_of.
  rewrite (run_SimpleScorer _ _ H), (run_SimpleWeightedScorer _ _ H),
    (run_ExtendedSimpleScorer _ _ H), (run_ExtendedSimpleWeightedScorer _ _ H).
  repeat split.
Qed.

(** C3, amended. On a post of the data model whose counters are below
    [2^64], a counter of 0 among those a strategy aggregates makes its
    score exactly 0: reblogs or favourites for the two 2-metric
    strategies, reblogs, favourites or replies for the two 3-metric ones;
    for the weighted strategies, whatever the follower count that
    converts to a float. *)
Theorem zero_counter_gives_zero_score (p : ScoredPost) (c : counters) :
  assumed_data_model p = Some c ->
  (two_counters_fit c = true ->
   (reblogs_count c = 0 \/ favourites_count c = 0)%Z ->
   result_of (score SimpleScorer) p = Return (PyNum 0) /\
   (followers_fit c = true ->
    result_of (score SimpleWeightedScorer) p = Return (PyNum 0))) /\
  (three_counters_fit c = true ->
   (reblogs_count c = 0 \/ favourites_count c = 0 \/ replies_count c = 0)%Z ->
   result_of (score ExtendedSimpleScorer) p = Return (PyNum 0) /\
   (followers_fit c = true ->
    result_of (score ExtendedSimpleWeightedScorer) p = Return (PyNum 0))).
Proof.
  intros H. unfold result_of.
  rewrite (run_SimpleScorer p c H), (run_SimpleWeightedScorer p c H),
    (run_ExtendedSimpleScorer p c H), (run_ExtendedSimpleWeightedScorer p c H).
  split; intros -> Hz.
  - rewrite (mean2_zero c Hz). simpl. rewrite !Rmult_0_l.
    split; [reflexivity | intros ->; reflexivity].
  - rewrite (mean3_zero c Hz). simpl. rewrite !Rmult_0_l.
    split; [reflexivity | intros ->; reflexivity].
Qed.

Lemma zero_counter_gives_zero_score_witness :
  (result_of (score SimpleScorer) (post_of 0 9 16 100) = Return (PyNum 0) /\
   (followers_fit {| reblogs_count := 0; favourites_count := 9;
                     replies_count := 16; followers_count := 100 |} = true ->
    result_of (score SimpleWeightedScorer) (post_of 0 9 16 100) = Return (PyNum 0))) /\
  (result_of (score ExtendedSimpleScorer) (post_of 4 9 0 100) = Return (PyNum 0) /\
   (followers_fit {| reblogs_count := 4; favourites_count := 9;
                     replies_count := 0; followers_count := 100 |} = true ->
    result_of (score ExtendedSimpleWeightedScorer) (post_of 4 9 0 100) =
    Return (PyNum 0))).
Proof.
  split.
  - apply (zero_counter_gives_zero_score (post_of 0 9 16 100)
             {| reblogs_count := 0; favourites_count := 9;
                replies_count := 16; followers_count := 100 |}).
    + vm_compute. reflexivity.
    + vm_compute. reflexivity.
    + left. reflexivity.
  - apply (zero_counter_gives_zero_score (post_of 4 9 0 100)
             {| reblogs_count := 4; favourites_count := 9;
                replies_count := 0; followers_count := 100 |}).
    + vm_compute. reflexivity.
    + vm_compute. reflexivity.
    + right. right. reflexivity.
Defined.




(** ** Totality *)




(** ** Purity *)

Section purity.

Lemma ret_pure {A} (a : A) : leaves_post_unchanged (ret a).
Proof. intros p. reflexivity. Qed.

Lemma raise_pure {A} (e : exn) : leaves_post_unchanged (@raise A e).
Proof. intros p. reflexivity. Qed.

Lemma get_info_pure : leaves_post_unchanged get_info.
Proof. intros p. reflexivity. Qed.

Lemma bind_pure {A B} (m : Py A) (k : A -> Py B) :
  leaves_post_unchanged m -> (forall a, leaves_post_unchanged (k a)) ->
  leaves_post_unchanged (bind m k).
Proof.
  intros Hm Hk p. specialize (Hm p). unfold post_after, bind in *.
  destruct (m p) as [[a | e] p']; simpl in Hm; subst p'.
  - apply Hk.
  - reflexivity.
Qed.

Lemma dict_getitem_pure d key : leaves_post_unchanged (dict_getitem d key).
Proof. intros p. unfold post_after, dict_getitem. now destruct (d !! key). Qed.

Lemma getitem_pure o key : leaves_post_unchanged (getitem o key).
Proof. destruct o; try apply raise_pure. apply dict_getitem_pure. Qed.

Lemma math_sqrt_pure o : leaves_post_unchanged (math_sqrt o).
Proof.
  intros p. unfold post_after, math_sqrt.
  destruct o as [| z | |]; try reflexivity.
  destruct (fits_float z); [| reflexivity]. now destruct (z <? 0)%Z.
Qed.

Lemma truediv_pure a b : leaves_post_unchanged (truediv a b).
Proof. intros p. unfold post_after, truediv. now destruct (Req_dec_T b 0). Qed.

Lemma py_mul_pure a b : leaves_post_unchanged (py_mul a b).
Proof. intros p. destruct a, b; reflexivity. Qed.

Lemma stats_gmean_pure xs : leaves_post_unchanged (stats_gmean xs).
Proof.
  intros p. unfold post_after, stats_gmean.
  destruct (as_ints xs) as [zs |]; [| reflexivity].
  destruct (forallb fits_numpy zs); [| reflexivity].
  now destruct (forallb _ zs).
Qed.

Ltac pure_step :=
  first [ apply bind_pure; [| intros ?]
        | apply ret_pure | apply raise_pure | apply get_info_pure
        | apply dict_getitem_pure | apply getitem_pure | apply math_sqrt_pure
        | apply truediv_pure | apply py_mul_pure | apply stats_gmean_pure
        | assumption ].

Lemma InverseFollowerWeight_weight_pure :
  leaves_post_unchanged InverseFollowerWeight_weight.
Proof.
  unfold InverseFollowerWeight_weight. repeat pure_step.
  case_match; repeat pure_step.
Qed.

Lemma find_weight_pure (order : list class) : leaves_post_unchanged (find_weight order).
Proof.
  induction order as [| c order IH]; simpl; [apply raise_pure |].
  destruct c; simpl; try exact IH.
  - apply ret_pure.
  - apply ret_pure.
  - apply InverseFollowerWeight_weight_pure.
Qed.

Lemma find_score_pure (order : list class) : leaves_post_unchanged (find_score order).
Proof.
  pose proof find_weight_pure as Hw.
  induction order as [| c order IH]; simpl; [apply raise_pure |].
  specialize (Hw order).
  destruct c; simpl; try exact IH.
  - apply ret_pure.
  - unfold SimpleScorer_score. repeat pure_step.
  - unfold SimpleWeightedScorer_score. repeat pure_step.
  - unfold ExtendedSimpleScorer_score. repeat pure_step.
  - unfold ExtendedSimpleWeightedScorer_score. repeat pure_step.
Qed.
End purity.

(** ** The registry *)

Lemma get_scorers_value :
  get_scorers =
  <["Simple" := SimpleScorer]>
    (<["SimpleWeighted" := SimpleWeightedScorer]>
       (<["ExtendedSimple" := ExtendedSimpleScorer]>
          (<["ExtendedSimpleWeighted" := ExtendedSimpleWeightedScorer]> ∅))).
Proof. vm_compute. reflexivity. Qed.

(** C4. [get_scorers()] has exactly the keys "Simple", "SimpleWeighted",
    "ExtendedSimple" and "ExtendedSimpleWeighted", each mapped to the
    class of that strategy, and no key is mapped to the abstract
    [Scorer]. *)
Theorem get_scorers_has_the_four_strategies :
  dom get_scorers =
    ({["Simple"; "SimpleWeighted"; "ExtendedSimple"; "ExtendedSimpleWeighted"]}
       : gset string) /\
  get_scorers !! "Simple" = Some SimpleScorer /\
  get_scorers !! "SimpleWeighted" = Some SimpleWeightedScorer /\
  get_scorers !! "ExtendedSimple" = Some ExtendedSimpleScorer /\
  get_scorers !! "ExtendedSimpleWeighted" = Some ExtendedSimpleWeightedScorer /\
  (forall key : string, get_scorers !! key <> Some Scorer).
Proof.
  assert (dom get_scorers =
          ({["Simple"; "SimpleWeighted"; "ExtendedSimple"; "ExtendedSimpleWeighted"]}
             : gset string)) as Hdom.
  { rewrite get_scorers_value, !dom_insert_L, dom_empty_L. set_solver. }
  split; [exact Hdom |].
  repeat split; try (vm_compute; reflexivity).
  intros key Hkey.
  assert (key ∈ dom get_scorers) as Hin by (apply elem_of_dom; eauto).
  rewrite Hdom in Hin.
  rewrite !elem_of_union, !elem_of_singleton in Hin.
  destruct Hin as [[[-> | ->] | ->] | ->]; vm_compute in Hkey; discriminate Hkey.
Qed.

(** *** How [str.replace] acts on a name *)

Lemma prefix_split (old s : string) :
  String.prefix old s = true -> exists post : string, s = old +:+ post.
Proof.
  revert s. induction old as [| a old IH]; intros s H.
  - exists s. reflexivity.
  - destruct s as [| b s]; simpl in H; [discriminate |].
    destruct (Ascii.ascii_dec a b) as [<- | _]; [| discriminate].
    destruct (IH s H) as [post ->]. exists post. reflexivity.
Qed.

Lemma occurs_in_head (old s : string) :
  String.prefix old s = true -> occurs_in old s.
Proof. intros H. destruct (prefix_split old s H) as [post ->]. now exists "", post. Qed.

Lemma occurs_in_tail (old : string) (a : Ascii.ascii) (s : string) :
  occurs_in old s -> occurs_in old (String a s).
Proof. intros (pre & post & ->). now exists (String a pre), post. Qed.

Lemma prefix_app (old rest : string) : String.prefix old (old +:+ rest) = true.
Proof.
  induction old as [| a old IH].
  - destruct rest; reflexivity.
  - change (String a old +:+ rest) with (String a (old +:+ rest)).
    cbn [String.prefix]. destruct (Ascii.ascii_dec a a); [exact IH | congruence].
Qed.

(** A "Scorer" at the head of a name is deleted, and the scan goes on
    behind it. *)
Lemma replace_head_occurrence (rest : string) :
  str_replace ("Scorer" +:+ rest) "Scorer" "" = str_replace rest "Scorer" "".
Proof.
  unfold str_replace. pose proof (prefix_app "Scorer" rest) as Hp.
  cbv [String.append] in *. cbn [replace_from]. rewrite Hp. reflexivity.
Qed.

(** A name in which [old] does not occur is left as it is. *)
Lemma replace_without_occurrence (old new s : string) :
  ~ occurs_in old s -> str_replace s old new = s.
Proof.
  unfold str_replace. induction s as [| a s IH]; intros Hno; [reflexivity |].
  cbn [replace_from].
  destruct (String.prefix old (String a s)) eqn:Hp.
  - exfalso. apply Hno. now apply occurs_in_head.
  - f_equal. apply IH. intros Hocc. apply Hno. now apply occurs_in_tail.
Qed.

Lemma append_nil_r (s : string) : s +:+ "" = s.
Proof.
  induction s as [| a s IH]; [reflexivity |].
  change (String a s +:+ "") with (String a (s +:+ "")). now rewrite IH.
Qed.

Lemma append_assoc (s t u : string) : (s +:+ t) +:+ u = s +:+ (t +:+ u).
Proof.
  induction s as [| a s IH]; [reflexivity |].
  change (String a ((s +:+ t) +:+ u) = String a (s +:+ (t +:+ u))).
  now rewrite IH.
Qed.

Lemma prefix_app_r (old s t : string) :
  String.prefix old s = true -> String.prefix old (s +:+ t) = true.
Proof.
  intros H. destruct (prefix_split old s H) as [post ->].
  rewrite append_assoc. apply prefix_app.
Qed.

Lemma occurs_in_cons_inv (old : string) (x : Ascii.ascii) (s : string) :
  occurs_in old (String x s) ->
  String.prefix old (String x s) = true \/ occurs_in old s.
Proof.
  intros ([| y pre] & post & Heq).
  - left. change ("" +:+ old +:+ post) with (old +:+ post) in Heq.
    rewrite Heq. apply prefix_app.
  - right. change (String y pre +:+ old +:+ post)
      with (String y (pre +:+ old +:+ post)) in Heq.
    injection Heq as _ ->. now exists pre, post.
Qed.

Lemma not_occurs_in_empty : ~ occurs_in "Scorer" "".
Proof. intros ([| y pre] & post & Heq); discriminate Heq. Qed.

(** "Scorer" cannot start inside a stem that is free of it and run into a
    "Scorer" that follows the stem: no end of the word is a start of it. *)
Lemma no_straddling_occurrence (stem rest : string) :
  stem <> "" -> ~ occurs_in "Scorer" stem ->
  String.prefix "Scorer" (stem +:+ "Scorer" +:+ rest) = false.
Proof.
  intros Hne Hno.
  destruct (String.prefix "Scorer" (stem +:+ "Scorer" +:+ rest)) eqn:Hp;
    [| reflexivity].
  exfalso.
  destruct stem as [| a1 [| a2 [| a3 [| a4 [| a5 [| a6 tl]]]]]];
    [congruence | ..]; cbv [String.append] in Hp; cbn [String.prefix] in Hp;
    repeat match type of Hp with
           | context [Ascii.ascii_dec ?x ?y] =>
               destruct (Ascii.ascii_dec x y) as [e | _];
               [try discriminate e; subst | discriminate Hp]
           end.
  apply Hno. now exists "", tl.
Qed.

(** The first "Scorer" of a name is deleted and the scan goes on behind
    it: what precedes it is kept as it is. *)
Lemma replace_first_occurrence (a b : string) :
  ~ occurs_in "Scorer" a ->
  str_replace (a +:+ "Scorer" +:+ b) "Scorer" "" = a +:+ str_replace b "Scorer" "".
Proof.
  induction a as [| x a IH]; intros Hno.
  - apply replace_head_occurrence.
  - pose proof (no_straddling_occurrence (String x a) b ltac:(discriminate) Hno) as Hp.
    unfold str_replace in *.
    change (String x a +:+ "Scorer" +:+ b) with (String x (a +:+ "Scorer" +:+ b)) in *.
    cbn [replace_from]. rewrite Hp.
    change (String x a +:+ replace_from "Scorer" "" 0 b)
      with (String x (a +:+ replace_from "Scorer" "" 0 b)).
    f_equal. apply IH.
    intros Hocc. apply Hno. now apply occurs_in_tail.
Qed.

(** A name that ends in "Scorer" and holds no other "Scorer" loses just
    that ending. *)
Lemma replace_final_occurrence (stem : string) :
  ~ occurs_in "Scorer" stem -> str_replace (stem +:+ "Scorer") "Scorer" "" = stem.
Proof.
  intros Hno. pose proof (replace_first_occurrence stem "" Hno) as H.
  change ("Scorer" +:+ "") with "Scorer" in H. rewrite H.
  apply append_nil_r.
Qed.

(** Every name either holds no "Scorer" or splits at its first one. *)
Lemma first_occurrence (s : string) :
  ~ occurs_in "Scorer" s \/
  exists a b : string, s = a +:+ "Scorer" +:+ b /\ ~ occurs_in "Scorer" a.
Proof.
  induction s as [| x s IH].
  - left. apply not_occurs_in_empty.
  - destruct (String.prefix "Scorer" (String x s)) eqn:Hp.
    + right. destruct (prefix_split _ _ Hp) as [post ->].
      exists "", post. split; [reflexivity | apply not_occurs_in_empty].
    + destruct IH as [Hno | (a & b & -> & Hno)].
      * left. intros Hocc. apply occurs_in_cons_inv in Hocc as [Hocc | Hocc];
          [congruence | contradiction].
      * right. exists (String x a), b. split; [reflexivity |].
        intros Hocc. apply occurs_in_cons_inv in Hocc as [Hocc | Hocc];
          [| contradiction].
        apply (prefix_app_r _ _ ("Scorer" +:+ b)) in Hocc.
        change (String x a +:+ "Scorer" +:+ b)
          with (String x (a +:+ "Scorer" +:+ b)) in Hocc.
        congruence.
Qed.

(** *** The keys of the registry *)

Lemma dom_registry_from (scorers : list (string * class)) (d : gmap string class) :
  dom (foldl (fun d scorer => <[str_replace scorer.1 "Scorer" "" := scorer.2]> d)
             d scorers)
  = dom d ∪ list_to_set ((fun scorer => registry_key scorer.1) <$> scorers).
Proof.
  revert d. induction scorers as [| x scorers IH]; intros d; simpl.
  - now rewrite union_empty_r_L.
  - rewrite IH, dom_insert_L. unfold registry_key.
    now rewrite (comm_L (∪) {[_]} (dom d)), (assoc_L (∪)).
Qed.

Lemma dom_registry_of (scorers : list (string * class)) (key : string) :
  key ∈ dom (registry_of scorers) <->
  exists name c, (name, c) ∈ scorers /\ key = registry_key name.
Proof.
  unfold registry_of. rewrite dom_registry_from, dom_empty_L.
  rewrite elem_of_union, elem_of_list_to_set, list_elem_of_fmap. split.
  - intros [Hemp | ([name c] & -> & Hin)]; [| eauto].
    now apply not_elem_of_empty in Hemp.
  - intros (name & c & Hin & ->). right. exists (name, c). auto.
Qed.

(** The key is not the name with a final "Scorer" removed.  In a module
    that defines a scoring class named "ScorerLite", the name does not
    end in "Scorer", yet it is not kept as the key: the class is filed
    under "Lite". *)
Lemma registry_key_is_not_suffix_removal :
  ("ScorerLite", ScorerLite) ∈ scorers_in module_with_ScorerLite /\
  ends_with "ScorerLite" "Scorer" = false /\
  spec_remove_suffix "ScorerLite" = "ScorerLite" /\
  registry_key "ScorerLite" = "Lite" /\
  get_scorers_in module_with_ScorerLite !! "ScorerLite" = None /\
  get_scorers_in module_with_ScorerLite !! "Lite" = Some ScorerLite.
Proof.
  split.
  - apply (bool_decide_unpack _). vm_compute. reflexivity.
  - repeat split; vm_compute; reflexivity.
Qed.

(** C5, amended.  Every class [get_scorers] retains is filed under its
    name with each occurrence of "Scorer" deleted in one pass from left to
    right, and the registry has no other keys.  A name without "Scorer"
    is its own key; the key of a name is what precedes its first "Scorer"
    followed by the key of what comes after it, wherever in the name that
    occurrence is; every name is of one of these two forms.  For a name
    whose only "Scorer" is its ending the key is the name without that
    ending. *)
Theorem registry_key_deletes_every_Scorer
    (module : list (string * member)) (name : string) (c : class) :
  (name, c) ∈ scorers_in module ->
  registry_key name ∈ dom (get_scorers_in module) /\
  (forall key : string,
      key ∈ dom (get_scorers_in module) ->
      exists name' c', (name', c') ∈ scorers_in module /\ key = registry_key name') /\
  (~ occurs_in "Scorer" name -> registry_key name = name) /\
  (forall a b : string,
      name = a +:+ "Scorer" +:+ b -> ~ occurs_in "Scorer" a ->
      registry_key name = a +:+ registry_key b) /\
  (~ occurs_in "Scorer" name \/
   exists a b : string, name = a +:+ "Scorer" +:+ b /\ ~ occurs_in "Scorer" a) /\
  (forall stem : string,
      name = stem +:+ "Scorer" -> ~ occurs_in "Scorer" stem ->
      registry_key name = stem).
Proof.
  intros Hin. unfold get_scorers_in. repeat split.
  - apply dom_registry_of. eauto.
  - intros key Hkey. now apply dom_registry_of.
  - apply replace_without_occurrence.
  - intros a b -> Hno. now apply replace_first_occurrence.
  - apply first_occurrence.
  - intros stem -> Hno. now apply replace_final_occurrence.
Qed.

Lemma registry_key_deletes_every_Scorer_witness :
  registry_key "ScorerLite" ∈ dom (get_scorers_in module_with_ScorerLite) /\
  (forall key : string,
      key ∈ dom (get_scorers_in module_with_ScorerLite) ->
      exists name' c',
        (name', c') ∈ scorers_in module_with_ScorerLite /\
        key = registry_key name') /\
  (~ occurs_in "Scorer" "ScorerLite" -> registry_key "ScorerLite" = "ScorerLite") /\
  (forall a b : string,
      "ScorerLite" = a +:+ "Scorer" +:+ b -> ~ occurs_in "Scorer" a ->
      registry_key "ScorerLite" = a +:+ registry_key b) /\
  (~ occurs_in "Scorer" "ScorerLite" \/
   exists a b : string,
     "ScorerLite" = a +:+ "Scorer" +:+ b /\ ~ occurs_in "Scorer" a) /\
  (forall stem : string,
      "ScorerLite" = stem +:+ "Scorer" -> ~ occurs_in "Scorer" stem ->
      registry_key "ScorerLite" = stem).
Proof.
  apply (registry_key_deletes_every_Scorer module_with_ScorerLite "ScorerLite"
           ScorerLite).
  apply (bool_decide_unpack _). vm_compute. reflexivity.
Defined.

(** Occurrences inside a name and repeated ones go as well; a "Scorer" that
    only comes about by the deletion stays, the name being scanned once. *)
Example registry_keys_of_other_names :
  registry_key "AScorerB" = "AB" /\
  registry_key "ScorerXScorer" = "X" /\
  registry_key "ScoScorerrer" = "Scorer".
Proof. repeat split; vm_compute; reflexivity. Qed.

(** ** The worked examples of the specification *)

Lemma geometric_mean_4_9 : geometric_mean [4; 9]%R = 6%R.
Proof.
  unfold geometric_mean. apply nth_root_unique; simpl; [lia | lra | lra].
Qed.

Lemma inverse_follower_100 : inverse_follower 100 = (1 / 10)%R.
Proof.
  unfold inverse_follower. simpl.
  replace 100%R with (10 * 10)%R by lra.
  rewrite sqrt_square by lra. reflexivity.
Qed.

(** 4 reblogs, 9 favourites, no followers: [Simple] scores 6 and
    [SimpleWeighted] scores 0. *)
Example scores_without_followers :
  result_of (score SimpleScorer) (post_of 4 9 16 0) = Return (PyNum 6) /\
  result_of (score SimpleWeightedScorer) (post_of 4 9 16 0) = Return (PyNum 0).
Proof.
  assert (assumed_data_model (post_of 4 9 16 0) =
          Some {| reblogs_count := 4; favourites_count := 9;
                  replies_count := 16; followers_count := 0 |}) as H
      by (vm_compute; reflexivity).
  unfold result_of.
  rewrite (run_SimpleScorer _ _ H), (run_SimpleWeightedScorer _ _ H).
  unfold mean2, inverse_follower. simpl. rewrite geometric_mean_4_9.
  split; do 2 f_equal; lra.
Qed.

(** 4 reblogs, 9 favourites, 100 followers: [SimpleWeighted] scores
    6 * (1/10) = 0.6. *)
Example score_with_100_followers :
  result_of (score SimpleWeightedScorer) example_post = Return (PyNum 0.6).
Proof.
  unfold result_of.
  rewrite (run_SimpleWeightedScorer _ _ example_post_in_model).
  unfold mean2. simpl. rewrite geometric_mean_4_9, inverse_follower_100.
  do 2 f_equal. lra.
Qed.

(** * Further properties of the module *)

(** ** More on roots and means *)

Section means.
Local Open Scope R_scope.

Lemma pow_lt_strict (a b : R) (n : nat) :
  (0 < n)%nat -> 0 <= a < b -> a ^ n < b ^ n.
Proof.
  intros Hn Hab. destruct n as [| n]; [lia |]. clear Hn.
  induction n as [| n IH].
  - simpl. lra.
  - change (a ^ S (S n)) with (a * a ^ S n).
    change (b ^ S (S n)) with (b * b ^ S n).
    assert (0 <= a ^ S n) by (apply pow_le; lra).
    nra.
Qed.

Lemma nth_root_le (n : nat) (x y : R) :
  (0 < n)%nat -> 0 <= x <= y -> nth_root n x <= nth_root n y.
Proof.
  intros Hn [Hx Hxy].
  destruct (Rle_lt_dec (nth_root n x) (nth_root n y)) as [Hle | Hlt]; [exact Hle |].
  exfalso.
  pose proof (nth_root_nonneg n y) as Hy0.
  pose proof (pow_lt_strict _ _ n Hn (conj Hy0 Hlt)) as Hpow.
  rewrite !nth_root_pow in Hpow by (try exact Hn; lra). lra.
Qed.

Lemma product_le (vs ws : list R) :
  Forall2 (fun v w => 0 <= v <= w) vs ws -> 0 <= product vs <= product ws.
Proof.
  induction 1 as [| v w vs ws Hvw _ IH]; simpl; [lra |]. nra.
Qed.

(** The mean grows with each of its arguments. *)
Lemma geometric_mean_le (vs ws : list R) :
  vs <> [] -> Forall2 (fun v w => 0 <= v <= w) vs ws ->
  geometric_mean vs <= geometric_mean ws.
Proof.
  intros Hne H. unfold geometric_mean.
  rewrite <- (Forall2_length _ _ _ H).
  apply nth_root_le.
  - destruct vs; [contradiction | simpl; lia].
  - now apply product_le.
Qed.

End means.

(** ** Behaviour on posts outside the data model *)

(** X1. The unweighted strategies read nothing but their counters: a post
    without an [account] entry (and, for [SimpleScorer], without a
    [replies_count]) is scored all the same, its counters being
    non-negative integers below [2^64]. *)
Theorem unweighted_scores_need_only_their_counters (p : ScoredPost) (r f : Z) :
  info p !! "reblogs_count" = Some (JInt r) ->
  info p !! "favourites_count" = Some (JInt f) ->
  (0 <= r < 2 ^ 64)%Z -> (0 <= f < 2 ^ 64)%Z ->
  result_of (score SimpleScorer) p = Return (PyNum (geometric_mean [IZR r; IZR f])) /\
  (forall y : Z,
      info p !! "replies_count" = Some (JInt y) -> (0 <= y < 2 ^ 64)%Z ->
      result_of (score ExtendedSimpleScorer) p =
      Return (PyNum (geometric_mean [IZR r; IZR f; IZR y]))) /\
  (info p !! "replies_count" = None ->
   result_of (score ExtendedSimpleScorer) p = Raise (KeyError "replies_count")).
Proof.
  intros Hr Hf Hr0 Hf0.
  pose proof (fits_numpy_below r Hr0) as Fr.
  pose proof (fits_numpy_below f Hf0) as Ff.
  unfold result_of. repeat split.
  - rewrite (run_SimpleScorer_fields p r f), Fr, Ff by (assumption || lia). simpl.
    now rewrite Rmult_1_r.
  - intros y Hy Hy0. pose proof (fits_numpy_below y Hy0) as Fy.
    rewrite (run_ExtendedSimpleScorer_fields p r f y), Fr, Ff, Fy
      by (assumption || lia). simpl.
    now rewrite Rmult_1_r.
  - intros Hy. rewrite score_ExtendedSimpleScorer.
    unfold ExtendedSimpleScorer_score.
    cbv [bind get_info dict_getitem ret raise]. now rewrite Hr, Hf, Hy.
Qed.

Lemma unweighted_scores_need_only_their_counters_witness :
  let p := {| info := <["reblogs_count" := JInt 4]>
                        (<["favourites_count" := JInt 9]> ∅) |} in
  result_of (score SimpleScorer) p = Return (PyNum (geometric_mean [4; 9]%R)) /\
  result_of (score ExtendedSimpleScorer) p = Raise (KeyError "replies_count").
Proof.
  intros p.
  destruct (unweighted_scores_need_only_their_counters p 4 9) as (H2 & _ & H3).
  - vm_compute. reflexivity.
  - vm_compute. reflexivity.
  - lia.
  - lia.
  - split; [exact H2 | apply H3; vm_compute; reflexivity].
Defined.

(** X2. A post without a [reblogs_count] makes each of the four strategies
    raise the [KeyError] of that key, whatever else the post holds: the
    counter is the first thing any of them reads. *)
Theorem missing_reblogs_count_is_a_KeyError (p : ScoredPost) :
  info p !! "reblogs_count" = None ->
  result_of (score SimpleScorer) p = Raise (KeyError "reblogs_count") /\
  result_of (score SimpleWeightedScorer) p = Raise (KeyError "reblogs_count") /\
  result_of (score ExtendedSimpleScorer) p = Raise (KeyError "reblogs_count") /\
  result_of (score ExtendedSimpleWeightedScorer) p = Raise (KeyError "reblogs_count").
Proof.
  intros Hr. unfold result_of.
  rewrite score_SimpleWeightedScorer, score_ExtendedSimpleWeightedScorer.
  unfold SimpleWeightedScorer_score, ExtendedSimpleWeightedScorer_score.
  rewrite score_SimpleScorer, score_ExtendedSimpleScorer.
  unfold SimpleScorer_score, ExtendedSimpleScorer_score.
  cbv [bind get_info dict_getitem ret raise]. rewrite Hr. auto.
Qed.

Lemma missing_reblogs_count_is_a_KeyError_witness :
  result_of (score SimpleWeightedScorer) {| info := ∅ |} =
  Raise (KeyError "reblogs_count").
Proof.
  apply (missing_reblogs_count_is_a_KeyError {| info := ∅ |}).
  vm_compute. reflexivity.
Defined.

(** X3. A negative follower count that converts to a float is a
    [ValueError] (the square root's), from the weight and from both
    weighted strategies on counters below [2^64]; a counter of 0 does not
    turn it into a score of 0, the weight being computed all the same. *)
Theorem negative_followers_is_a_ValueError
    (p : ScoredPost) (a : gmap string json) (n r f : Z) :
  info p !! "account" = Some (JDict a) ->
  a !! "followers_count" = Some (JInt n) ->
  (- float_overflow < n < 0)%Z ->
  info p !! "reblogs_count" = Some (JInt r) ->
  info p !! "favourites_count" = Some (JInt f) ->
  (0 <= r < 2 ^ 64)%Z -> (0 <= f < 2 ^ 64)%Z ->
  result_of (weight InverseFollowerWeight) p = Raise ValueError /\
  result_of (score SimpleWeightedScorer) p = Raise ValueError /\
  (forall y : Z,
      info p !! "replies_count" = Some (JInt y) -> (0 <= y < 2 ^ 64)%Z ->
      result_of (score ExtendedSimpleWeightedScorer) p = Raise ValueError).
Proof.
  intros Ha Hn Hneg Hr Hf Hr0 Hf0.
  pose proof (fits_numpy_below r Hr0) as Fr.
  pose proof (fits_numpy_below f Hf0) as Ff.
  assert (InverseFollowerWeight_weight p = (Raise ValueError, p)) as Hw.
  { rewrite (run_InverseFollowerWeight_int p a n Ha Hn). unfold weight_outcome.
    destruct (n =? 0)%Z eqn:Hz; [apply Z.eqb_eq in Hz; lia |].
    assert (fits_float n = true) as ->
        by (unfold fits_float; apply Z.ltb_lt; lia).
    destruct (n <? 0)%Z eqn:Hlt; [reflexivity | apply Z.ltb_ge in Hlt; lia]. }
  unfold result_of. split; [| split].
  - now rewrite weight_InverseFollowerWeight, Hw.
  - rewrite score_SimpleWeightedScorer, weight_InverseFollowerWeight.
    unfold SimpleWeightedScorer_score. cbv [bind].
    rewrite (run_SimpleScorer_fields p r f), Fr, Ff by (assumption || lia).
    simpl. now rewrite Hw.
  - intros y Hy Hy0. pose proof (fits_numpy_below y Hy0) as Fy.
    rewrite score_ExtendedSimpleWeightedScorer, weight_InverseFollowerWeight.
    unfold ExtendedSimpleWeightedScorer_score. cbv [bind].
    rewrite (run_ExtendedSimpleScorer_fields p r f y), Fr, Ff, Fy
      by (assumption || lia).
    simpl. now rewrite Hw.
Qed.

Lemma negative_followers_is_a_ValueError_witness :
  result_of (weight InverseFollowerWeight) (post_of 0 9 16 (-1)) = Raise ValueError /\
  result_of (score SimpleWeightedScorer) (post_of 0 9 16 (-1)) = Raise ValueError /\
  result_of (score ExtendedSimpleWeightedScorer) (post_of 0 9 16 (-1)) = Raise ValueError.
Proof.
  destruct (negative_followers_is_a_ValueError (post_of 0 9 16 (-1))
              (<["followers_count" := JInt (-1)]> ∅) (-1) 0 9) as (Hw & H2 & H3).
  - vm_compute. reflexivity.
  - vm_compute. reflexivity.
  - vm_compute. split; reflexivity.
  - vm_compute. reflexivity.
  - vm_compute. reflexivity.
  - lia.
  - lia.
  - split; [exact Hw | split; [exact H2 |]].
    apply (H3 16%Z); [vm_compute; reflexivity | lia].
Defined.

(** X4. A post without an [account] entry makes the weight, and a weighted
    strategy whose counters are in order (non-negative integers below
    [2^64]), raise the [KeyError] of "account"; an account without a
    [followers_count] raises that of "followers_count". *)
Theorem missing_account_is_a_KeyError (p : ScoredPost) (r f : Z) :
  info p !! "reblogs_count" = Some (JInt r) ->
  info p !! "favourites_count" = Some (JInt f) ->
  (0 <= r < 2 ^ 64)%Z -> (0 <= f < 2 ^ 64)%Z ->
  (info p !! "account" = None ->
   result_of (weight InverseFollowerWeight) p = Raise (KeyError "account") /\
   result_of (score SimpleWeightedScorer) p = Raise (KeyError "account")) /\
  (forall a : gmap string json,
      info p !! "account" = Some (JDict a) -> a !! "followers_count" = None ->
      result_of (weight InverseFollowerWeight) p = Raise (KeyError "followers_count") /\
      result_of (score SimpleWeightedScorer) p = Raise (KeyError "followers_count")).
Proof.
  intros Hr Hf Hr0 Hf0. unfold result_of.
  rewrite score_SimpleWeightedScorer, weight_InverseFollowerWeight.
  unfold SimpleWeightedScorer_score. cbv [bind].
  rewrite (run_SimpleScorer_fields p r f), (fits_numpy_below r Hr0),
    (fits_numpy_below f Hf0) by (assumption || lia).
  cbn [andb]. unfold InverseFollowerWeight_weight.
  cbv [bind get_info dict_getitem getitem ret raise].
  split.
  - intros Ha. rewrite Ha. auto.
  - intros a Ha Hn. rewrite Ha, Hn. auto.
Qed.

Lemma missing_account_is_a_KeyError_witness :
  let p := {| info := <["reblogs_count" := JInt 4]>
                        (<["favourites_count" := JInt 9]> ∅) |} in
  result_of (weight InverseFollowerWeight) p = Raise (KeyError "account") /\
  result_of (score SimpleWeightedScorer) p = Raise (KeyError "account").
Proof.
  intros p.
  destruct (missing_account_is_a_KeyError p 4 9) as (H1 & _).
  - vm_compute. reflexivity.
  - vm_compute. reflexivity.
  - lia.
  - lia.
  - apply H1. vm_compute. reflexivity.
Defined.

(** X5. On a post of the data model whose author has no followers, both
    weighted strategies score 0, whatever the counters below [2^64]. *)
Theorem no_followers_gives_zero_weighted_score (p : ScoredPost) (c : counters) :
  assumed_data_model p = Some c ->
  followers_count c = 0%Z ->
  (two_counters_fit c = true ->
   result_of (score SimpleWeightedScorer) p = Return (PyNum 0)) /\
  (three_counters_fit c = true ->
   result_of (score ExtendedSimpleWeightedScorer) p = Return (PyNum 0)).
Proof.
  intros H Hn. unfold result_of.
  rewrite (run_SimpleWeightedScorer p c H), (run_ExtendedSimpleWeightedScorer p c H).
  unfold followers_fit. rewrite Hn, fits_float_0. unfold inverse_follower. simpl.
  rewrite !Rmult_0_r. split; intros ->; reflexivity.
Qed.

Lemma no_followers_gives_zero_weighted_score_witness :
  (two_counters_fit {| reblogs_count := 4; favourites_count := 9;
                       replies_count := 16; followers_count := 0 |} = true ->
   result_of (score SimpleWeightedScorer) (post_of 4 9 16 0) = Return (PyNum 0)) /\
  (three_counters_fit {| reblogs_count := 4; favourites_count := 9;
                         replies_count := 16; followers_count := 0 |} = true ->
   result_of (score ExtendedSimpleWeightedScorer) (post_of 4 9 16 0) =
   Return (PyNum 0)).
Proof.
  apply (no_followers_gives_zero_weighted_score (post_of 4 9 16 0)
           {| reblogs_count := 4; favourites_count := 9;
              replies_count := 16; followers_count := 0 |}).
  - vm_compute. reflexivity.
  - reflexivity.
Defined.

(** ** No division by zero, on any post *)

Section no_zero_division.

Let safe {A} (m : Py A) : Prop :=
  forall p : ScoredPost, result_of m p <> Raise ZeroDivisionError.

Lemma bind_safe {A B} (m : Py A) (k : A -> Py B) :
  safe m -> (forall a, safe (k a)) -> safe (bind m k).
Proof.
  intros Hm Hk p. specialize (Hm p). unfold result_of, bind in *.
  destruct (m p) as [[a | e] p']; simpl in *.
  - apply Hk.
  - intros [= ->]. now apply Hm.
Qed.

Lemma dict_getitem_safe d key : safe (dict_getitem d key).
Proof. intros p. unfold result_of, dict_getitem. now destruct (d !! key). Qed.

Lemma stats_gmean_safe xs : safe (stats_gmean xs).
Proof.
  intros p. unfold result_of, stats_gmean.
  destruct (as_ints xs) as [zs |]; [| discriminate].
  destruct (forallb fits_numpy zs); [| discriminate].
  now destruct (forallb _ zs).
Qed.

Lemma py_mul_safe a b : safe (py_mul a b).
Proof. intros p. destruct a, b; discriminate. Qed.

(** The guard [followers_count == 0] keeps the division away from 0. *)
Lemma InverseFollowerWeight_weight_safe : safe InverseFollowerWeight_weight.
Proof.
  intros p. unfold result_of.
  destruct (info p !! "account") as [acct |] eqn:Ha.
  - destruct acct as [| z | s | a].
    1-3: unfold InverseFollowerWeight_weight;
         cbv [bind get_info dict_getitem getitem ret raise]; rewrite Ha; discriminate.
    destruct (a !! "followers_count") as [v |] eqn:Hn.
    + destruct v as [| n | s | d].
      2: { rewrite (run_InverseFollowerWeight_int p a n Ha Hn). unfold weight_outcome.
           destruct (n =? 0)%Z; [discriminate |].
           destruct (fits_float n); [| discriminate].
           destruct (n <? 0)%Z; discriminate. }
      all: unfold InverseFollowerWeight_weight;
           cbv [bind get_info dict_getitem getitem ret raise eq_zero math_sqrt];
           rewrite Ha; cbv [getitem dict_getitem ret]; rewrite Hn;
           cbv [bind get_info dict_getitem getitem ret raise eq_zero math_sqrt];
           rewrite Ha; cbv [getitem dict_getitem ret]; rewrite Hn; discriminate.
    + unfold InverseFollowerWeight_weight.
      cbv [bind get_info dict_getitem getitem ret raise]. rewrite Ha.
      cbv [getitem dict_getitem raise]. rewrite Hn. discriminate.
  - unfold InverseFollowerWeight_weight.
    cbv [bind get_info dict_getitem getitem ret raise]. rewrite Ha. discriminate.
Qed.

Lemma find_weight_safe (order : list class) : safe (find_weight order).
Proof.
  induction order as [| c order IH]; simpl; [intros p; discriminate |].
  destruct c; simpl; try exact IH.
  - intros p. discriminate.
  - intros p. discriminate.
  - apply InverseFollowerWeight_weight_safe.
Qed.

Ltac safe_step :=
  first [ apply bind_safe; [| intros ?]
        | apply dict_getitem_safe | apply stats_gmean_safe | apply py_mul_safe
        | assumption
        | (intros ?; discriminate) ].

Lemma find_score_safe (order : list class) : safe (find_score order).
Proof.
  pose proof find_weight_safe as Hw.
  induction order as [| c order IH]; simpl; [intros p; discriminate |].
  specialize (Hw order).
  destruct c; simpl; try exact IH.
  - intros p. discriminate.
  - unfold SimpleScorer_score. repeat safe_step.
  - unfold SimpleWeightedScorer_score. repeat safe_step.
  - unfold ExtendedSimpleScorer_score. repeat safe_step.
  - unfold ExtendedSimpleWeightedScorer_score. repeat safe_step.
Qed.

End no_zero_division.

(** X6. Whatever the post holds and whatever the class, neither [weight] nor
    [score] raises [ZeroDivisionError]: the only division is guarded by
    the test for a follower count of 0, and the square root of a non-zero
    integer is not 0. *)
Theorem no_ZeroDivisionError (cls : class) (p : ScoredPost) :
  result_of (weight cls) p <> Raise ZeroDivisionError /\
  result_of (score cls) p <> Raise ZeroDivisionError.
Proof.
  split.
  - apply (find_weight_safe (mro cls)).
  - apply (find_score_safe (mro cls)).
Qed.

(** ** How the weight and the scores vary *)

Lemma inverse_follower_antitone (n m : Z) :
  (0 < n <= m)%Z -> (inverse_follower m <= inverse_follower n)%R.
Proof.
  intros [Hn Hnm]. unfold inverse_follower.
  destruct (n =? 0)%Z eqn:Hzn; [apply Z.eqb_eq in Hzn; lia |].
  destruct (m =? 0)%Z eqn:Hzm; [apply Z.eqb_eq in Hzm; lia |].
  pose proof (sqrt_pos_int n Hn) as Hsn.
  assert (sqrt (IZR n) <= sqrt (IZR m))%R as Hs
      by (apply sqrt_le_1_alt, IZR_le; lia).
  unfold Rdiv. rewrite !Rmult_1_l.
  apply Rinv_le_contravar; lra.
Qed.

(** X7. Among authors with followers, more followers never mean a larger
    weight, as far as the counts convert to a float; a single follower
    gives the weight 1, and four times the followers give half the
    weight. *)
Theorem weight_falls_with_followers (p q : ScoredPost) (c d : counters) :
  assumed_data_model p = Some c ->
  assumed_data_model q = Some d ->
  (0 < followers_count c <= followers_count d)%Z ->
  (followers_count d < float_overflow)%Z ->
  exists wp wq : R,
    result_of (weight InverseFollowerWeight) p = Return (PyNum wp) /\
    result_of (weight InverseFollowerWeight) q = Return (PyNum wq) /\
    (0 < wq <= wp)%R /\
    (followers_count c = 1%Z -> wp = 1%R) /\
    (followers_count d = (4 * followers_count c)%Z -> wq = (wp / 2)%R).
Proof.
  intros Hp Hq Hn Hfit.
  assert (followers_fit d = true) as Fd
      by (unfold followers_fit, fits_float; apply Z.ltb_lt; lia).
  assert (followers_fit c = true) as Fc
      by (unfold followers_fit, fits_float; apply Z.ltb_lt; lia).
  exists (inverse_follower (followers_count c)), (inverse_follower (followers_count d)).
  unfold result_of.
  rewrite weight_InverseFollowerWeight.
  rewrite (run_InverseFollowerWeight p c Hp), (run_InverseFollowerWeight q d Hq).
  rewrite Fc, Fd. cbn [fst].
  split; [reflexivity |]. split; [reflexivity |]. repeat split.
  - unfold inverse_follower.
    destruct (followers_count d =? 0)%Z eqn:Hz; [apply Z.eqb_eq in Hz; lia |].
    pose proof (sqrt_pos_int (followers_count d) ltac:(lia)).
    apply Rdiv_lt_0_compat; lra.
  - now apply inverse_follower_antitone.
  - intros ->. unfold inverse_follower. simpl. rewrite sqrt_1. lra.
  - intros ->. unfold inverse_follower.
    destruct (followers_count c =? 0)%Z eqn:Hz; [apply Z.eqb_eq in Hz; lia |].
    destruct (4 * followers_count c =? 0)%Z eqn:Hz4; [apply Z.eqb_eq in Hz4; lia |].
    pose proof (sqrt_pos_int (followers_count c) ltac:(lia)) as Hs.
    rewrite mult_IZR, sqrt_mult by (try apply IZR_le; lra || lia).
    replace 4%R with (2 * 2)%R by lra. rewrite sqrt_square by lra.
    field. lra.
Qed.

Lemma weight_falls_with_followers_witness :
  exists wp wq : R,
    result_of (weight InverseFollowerWeight) (post_of 4 9 16 25) = Return (PyNum wp) /\
    result_of (weight InverseFollowerWeight) (post_of 0 0 0 100) = Return (PyNum wq) /\
    (0 < wq <= wp)%R /\
    ((25 = 1)%Z -> wp = 1%R) /\
    ((100 = 4 * 25)%Z -> wq = (wp / 2)%R).
Proof.
  apply (weight_falls_with_followers (post_of 4 9 16 25) (post_of 0 0 0 100)
           {| reblogs_count := 4; favourites_count := 9;
              replies_count := 16; followers_count := 25 |}
           {| reblogs_count := 0; favourites_count := 0;
              replies_count := 0; followers_count := 100 |}).
  - vm_compute. reflexivity.
  - vm_compute. reflexivity.
  - simpl. lia.
  - vm_compute. reflexivity.
Defined.

(** X8. The weight a strategy multiplies in is the one its own [weight]
    method returns: on a post of the data model whose counters are below
    [2^64] and whose follower count converts to a float, the score of
    each of the four strategies is the geometric mean of its counters
    times [cls.weight(post)], which is 1 for the two unweighted classes
    and the inverse-follower weight for the two weighted ones. *)
Theorem score_is_mean_times_own_weight (p : ScoredPost) (c : counters) :
  assumed_data_model p = Some c ->
  three_counters_fit c = true ->
  followers_fit c = true ->
  let r := IZR (reblogs_count c) in
  let f := IZR (favourites_count c) in
  let y := IZR (replies_count c) in
  exists w : R,
    result_of (weight InverseFollowerWeight) p = Return (PyNum w) /\
    (result_of (weight SimpleScorer) p = Return (PyNum 1) /\
     result_of (score SimpleScorer) p = Return (PyNum (geometric_mean [r; f] * 1))) /\
    (result_of (weight SimpleWeightedScorer) p = Return (PyNum w) /\
     result_of (score SimpleWeightedScorer) p =
       Return (PyNum (geometric_mean [r; f] * w))) /\
    (result_of (weight ExtendedSimpleScorer) p = Return (PyNum 1) /\
     result_of (score ExtendedSimpleScorer) p =
       Return (PyNum (geometric_mean [r; f; y] * 1))) /\
    (result_of (weight ExtendedSimpleWeightedScorer) p = Return (PyNum w) /\
     result_of (score ExtendedSimpleWeightedScorer) p =
       Return (PyNum (geometric_mean [r; f; y] * w))).
Proof.
  intros H H3fit Hnfit r f y.
  assert (two_counters_fit c = true) as H2fit
      by (unfold three_counters_fit in H3fit; now apply andb_prop in H3fit).
  exists (inverse_follower (followers_count c)).
  unfold result_of.
  rewrite (run_SimpleScorer p c H), (run_SimpleWeightedScorer p c H),
    (run_ExtendedSimpleScorer p c H), (run_ExtendedSimpleWeightedScorer p c H).
  resolve_mro. rewrite (run_InverseFollowerWeight p c H).
  rewrite H2fit, H3fit, Hnfit.
  unfold mean2, mean3. fold r f y. simpl.
  rewrite !Rmult_1_r. repeat split.
Qed.

Lemma score_is_mean_times_own_weight_witness :
  exists w : R,
    result_of (weight InverseFollowerWeight) example_post = Return (PyNum w) /\
    (result_of (weight SimpleScorer) example_post = Return (PyNum 1) /\
     result_of (score SimpleScorer) example_post =
       Return (PyNum (geometric_mean [4; 9]%R * 1))) /\
    (result_of (weight SimpleWeightedScorer) example_post = Return (PyNum w) /\
     result_of (score SimpleWeightedScorer) example_post =
       Return (PyNum (geometric_mean [4; 9]%R * w))) /\
    (result_of (weight ExtendedSimpleScorer) example_post = Return (PyNum 1) /\
     result_of (score ExtendedSimpleScorer) example_post =
       Return (PyNum (geometric_mean [4; 9; 16]%R * 1))) /\
    (result_of (weight ExtendedSimpleWeightedScorer) example_post = Return (PyNum w) /\
     result_of (score ExtendedSimpleWeightedScorer) example_post =
       Return (PyNum (geometric_mean [4; 9; 16]%R * w))).
Proof.
  apply (score_is_mean_times_own_weight example_post example_counters).
  - vm_compute. reflexivity.
  - vm_compute. reflexivity.
  - vm_compute. reflexivity.
Defined.

(** X10. More engagement never lowers an unweighted score: if no counter
    of a post is below that of another, and the larger counters are below
    [2^64], neither is its score. *)
Theorem unweighted_score_is_monotone (p q : ScoredPost) (c d : counters) :
  assumed_data_model p = Some c ->
  assumed_data_model q = Some d ->
  (reblogs_count c <= reblogs_count d < 2 ^ 64)%Z ->
  (favourites_count c <= favourites_count d < 2 ^ 64)%Z ->
  exists sp sq : R,
    result_of (score SimpleScorer) p = Return (PyNum sp) /\
    result_of (score SimpleScorer) q = Return (PyNum sq) /\
    (sp <= sq)%R /\
    ((replies_count c <= replies_count d < 2 ^ 64)%Z ->
     exists ep eq : R,
       result_of (score ExtendedSimpleScorer) p = Return (PyNum ep) /\
       result_of (score ExtendedSimpleScorer) q = Return (PyNum eq) /\
       (ep <= eq)%R).
Proof.
  intros Hp Hq [Hr Hrb] [Hf Hfb].
  pose proof (data_model_fields p c Hp) as (_ & _ & _ & _ & Hr0 & Hf0 & Hy0 & _).
  assert (two_counters_fit c = true /\ two_counters_fit d = true) as [F2c F2d].
  { unfold two_counters_fit. rewrite !fits_numpy_below by lia. auto. }
  exists (mean2 c * 1)%R, (mean2 d * 1)%R. unfold result_of.
  rewrite (run_SimpleScorer p c Hp), (run_SimpleScorer q d Hq).
  rewrite (run_ExtendedSimpleScorer p c Hp), (run_ExtendedSimpleScorer q d Hq).
  unfold three_counters_fit. rewrite F2c, F2d. cbn [fst andb].
  split; [reflexivity |]. split; [reflexivity |]. split.
  - apply IZR_le in Hr, Hf, Hr0, Hf0.
    rewrite !Rmult_1_r. apply geometric_mean_le; [discriminate |].
    repeat (apply Forall2_cons_2; [split; assumption |]). apply Forall2_nil_2.
  - intros [Hy Hyb]. rewrite !fits_numpy_below by lia. cbn [fst].
    apply IZR_le in Hr, Hf, Hy, Hr0, Hf0, Hy0.
    exists (mean3 c * 1)%R, (mean3 d * 1)%R. repeat split.
    rewrite !Rmult_1_r. apply geometric_mean_le; [discriminate |].
    repeat (apply Forall2_cons_2; [split; assumption |]). apply Forall2_nil_2.
Qed.

Lemma unweighted_score_is_monotone_witness :
  exists sp sq : R,
    result_of (score SimpleScorer) (post_of 4 9 16 100) = Return (PyNum sp) /\
    result_of (score SimpleScorer) (post_of 5 9 20 0) = Return (PyNum sq) /\
    (sp <= sq)%R /\
    ((16 <= 20 < 2 ^ 64)%Z ->
     exists ep eq : R,
       result_of (score ExtendedSimpleScorer) (post_of 4 9 16 100) = Return (PyNum ep) /\
       result_of (score ExtendedSimpleScorer) (post_of 5 9 20 0) = Return (PyNum eq) /\
       (ep <= eq)%R).
Proof.
  apply (unweighted_score_is_monotone (post_of 4 9 16 100) (post_of 5 9 20 0)
           example_counters
           {| reblogs_count := 5; favourites_count := 9;
              replies_count := 20; followers_count := 0 |}).
  - vm_compute. reflexivity.
  - vm_compute. reflexivity.
  - simpl. lia.
  - simpl. lia.
Defined.

(** ** What a result depends on *)

Lemma result_of_bind {A B} (m : Py A) (k : A -> Py B) (p : ScoredPost) :
  leaves_post_unchanged m ->
  result_of (bind m k) p =
  match result_of m p with
  | Return a => result_of (k a) p
  | Raise e => Raise e
  end.
Proof.
  intros Hm. specialize (Hm p). unfold result_of, post_after, bind in *.
  destruct (m p) as [[a | e] p']; simpl in *; now subst.
Qed.

Lemma result_of_stats_gmean xs (p q : ScoredPost) :
  result_of (stats_gmean xs) p = result_of (stats_gmean xs) q.
Proof.
  unfold result_of, stats_gmean.
  destruct (as_ints xs) as [zs |]; [| reflexivity].
  destruct (forallb fits_numpy zs); [| reflexivity].
  now destruct (forallb _ zs).
Qed.

Lemma result_of_py_mul a b (p q : ScoredPost) :
  result_of (py_mul a b) p = result_of (py_mul a b) q.
Proof. destruct a, b; reflexivity. Qed.

Lemma SimpleScorer_score_depends (p q : ScoredPost) :
  info p !! "reblogs_count" = info q !! "reblogs_count" ->
  info p !! "favourites_count" = info q !! "favourites_count" ->
  result_of (score SimpleScorer) p = result_of (score SimpleScorer) q.
Proof.
  intros Hr Hf. rewrite score_SimpleScorer, weight_UniformWeight.
  unfold result_of, SimpleScorer_score.
  cbv [bind get_info dict_getitem ret raise]. rewrite Hr.
  destruct (info q !! "reblogs_count") as [r |]; [| reflexivity].
  cbv beta iota. rewrite Hf.
  destruct (info q !! "favourites_count") as [f |]; [| reflexivity].
  cbv beta iota.
  pose proof (result_of_stats_gmean [r; f] p q) as Hg.
  pose proof (stats_gmean_pure [r; f] p) as Hp.
  pose proof (stats_gmean_pure [r; f] q) as Hq.
  unfold result_of, post_after in Hg, Hp, Hq.
  destruct (stats_gmean [r; f] p) as [gp p'], (stats_gmean [r; f] q) as [gq q'].
  simpl in *. subst. destruct gq as [g |]; [| reflexivity].
  unfold UniformWeight_weight, ret. apply result_of_py_mul.
Qed.

Lemma ExtendedSimpleScorer_score_depends (p q : ScoredPost) :
  info p !! "reblogs_count" = info q !! "reblogs_count" ->
  info p !! "favourites_count" = info q !! "favourites_count" ->
  info p !! "replies_count" = info q !! "replies_count" ->
  result_of (score ExtendedSimpleScorer) p = result_of (score ExtendedSimpleScorer) q.
Proof.
  intros Hr Hf Hy. rewrite score_ExtendedSimpleScorer, weight_UniformWeight.
  unfold result_of, ExtendedSimpleScorer_score.
  cbv [bind get_info dict_getitem ret raise]. rewrite Hr.
  destruct (info q !! "reblogs_count") as [r |]; [| reflexivity].
  cbv beta iota. rewrite Hf.
  destruct (info q !! "favourites_count") as [f |]; [| reflexivity].
  cbv beta iota. rewrite Hy.
  destruct (info q !! "replies_count") as [y |]; [| reflexivity].
  cbv beta iota.
  pose proof (result_of_stats_gmean [r; f; y] p q) as Hg.
  pose proof (stats_gmean_pure [r; f; y] p) as Hp.
  pose proof (stats_gmean_pure [r; f; y] q) as Hq.
  unfold result_of, post_after in Hg, Hp, Hq.
  destruct (stats_gmean [r; f; y] p) as [gp p'], (stats_gmean [r; f; y] q) as [gq q'].
  simpl in *. subst. destruct gq as [g |]; [| reflexivity].
  unfold UniformWeight_weight, ret. apply result_of_py_mul.
Qed.

Lemma InverseFollowerWeight_weight_depends (p q : ScoredPost) :
  info p !! "account" = info q !! "account" ->
  result_of (weight InverseFollowerWeight) p =
  result_of (weight InverseFollowerWeight) q.
Proof.
  intros Ha. rewrite weight_InverseFollowerWeight.
  unfold result_of, InverseFollowerWeight_weight.
  cbv [bind get_info dict_getitem ret raise]. rewrite Ha.
  destruct (info q !! "account") as [acct |] eqn:Hq; [| reflexivity].
  cbv beta iota.
  destruct acct as [| z | s | a]; try reflexivity.
  cbv [getitem dict_getitem ret raise].
  destruct (a !! "followers_count") as [v |] eqn:Hv; [| reflexivity].
  cbv beta iota. destruct (eq_zero v); [reflexivity |].
  rewrite Ha, Hq. cbv beta iota. rewrite Hv. cbv beta iota.
  destruct v as [| n | s | d]; try reflexivity.
  cbv [math_sqrt ret raise]. destruct (fits_float n); [| reflexivity].
  destruct (n <? 0)%Z; [reflexivity |].
  cbv [truediv ret raise]. now destruct (Req_dec_T (sqrt (IZR n)) 0).
Qed.

Lemma weighted_score_depends (s : Py pyval) (p q : ScoredPost) :
  leaves_post_unchanged s ->
  result_of s p = result_of s q ->
  info p !! "account" = info q !! "account" ->
  result_of (SimpleWeightedScorer_score s (weight InverseFollowerWeight)) p =
  result_of (SimpleWeightedScorer_score s (weight InverseFollowerWeight)) q.
Proof.
  intros Hpure Hs Ha. unfold SimpleWeightedScorer_score.
  rewrite !result_of_bind by exact Hpure. rewrite Hs.
  destruct (result_of s q) as [v |]; [| reflexivity].
  rewrite !result_of_bind by apply find_weight_pure.
  rewrite (InverseFollowerWeight_weight_depends p q Ha).
  destruct (result_of (weight InverseFollowerWeight) q) as [w |]; [| reflexivity].
  apply result_of_py_mul.
Qed.

(** X11. A strategy's result, value or exception, is fixed by the entries it
    reads: two posts that agree on [reblogs_count] and [favourites_count]
    get the same [SimpleScorer] result, and agreeing on [replies_count]
    and on [account] as well settles the other three; nothing else in a
    post has any influence. *)
Theorem scores_depend_only_on_the_entries_read (p q : ScoredPost) :
  info p !! "reblogs_count" = info q !! "reblogs_count" ->
  info p !! "favourites_count" = info q !! "favourites_count" ->
  result_of (score SimpleScorer) p = result_of (score SimpleScorer) q /\
  (info p !! "replies_count" = info q !! "replies_count" ->
   result_of (score ExtendedSimpleScorer) p =
   result_of (score ExtendedSimpleScorer) q) /\
  (info p !! "account" = info q !! "account" ->
   result_of (score SimpleWeightedScorer) p =
   result_of (score SimpleWeightedScorer) q) /\
  (info p !! "replies_count" = info q !! "replies_count" ->
   info p !! "account" = info q !! "account" ->
   result_of (score ExtendedSimpleWeightedScorer) p =
   result_of (score ExtendedSimpleWeightedScorer) q).
Proof.
  intros Hr Hf. repeat split.
  - now apply SimpleScorer_score_depends.
  - intros Hy. now apply ExtendedSimpleScorer_score_depends.
  - intros Ha. rewrite score_SimpleWeightedScorer.
    apply weighted_score_depends; [apply find_score_pure | | exact Ha].
    now apply SimpleScorer_score_depends.
  - intros Hy Ha. rewrite score_ExtendedSimpleWeightedScorer.
    apply (weighted_score_depends (score ExtendedSimpleScorer));
      [apply find_score_pure | | exact Ha].
    now apply ExtendedSimpleScorer_score_depends.
Qed.

Lemma scores_depend_only_on_the_entries_read_witness :
  result_of (score SimpleScorer) (post_of 4 9 16 100) =
  result_of (score SimpleScorer)
    {| info := <["favourites_count" := JInt 9]>
                 (<["reblogs_count" := JInt 4]>
                 (<["language" := JStr "en"]> ∅)) |}.
Proof.
  apply (scores_depend_only_on_the_entries_read (post_of 4 9 16 100)).
  - vm_compute. reflexivity.
  - vm_compute. reflexivity.
Defined.

(** ** What the registry holds, for any module *)

Lemma elem_of_insert_by_name {A} (x y : string * A) (l : list (string * A)) :
  x ∈ insert_by_name y l <-> x = y \/ x ∈ l.
Proof.
  induction l as [| z l IH]; simpl.
  - rewrite list_elem_of_singleton, elem_of_nil. tauto.
  - destruct (String.leb y.1 z.1).
    + rewrite elem_of_cons. tauto.
    + rewrite !elem_of_cons, IH. tauto.
Qed.

Lemma elem_of_sort_by_name {A} (x : string * A) (l : list (string * A)) :
  x ∈ sort_by_name l <-> x ∈ l.
Proof.
  induction l as [| y l IH]; simpl; [tauto |].
  rewrite elem_of_insert_by_name, elem_of_cons, IH. tauto.
Qed.

Lemma elem_of_getmembers_isclass (module : list (string * member))
    (name : string) (c : class) :
  (name, c) ∈ getmembers_isclass module <-> (name, AClass c) ∈ module.
Proof.
  unfold getmembers_isclass. rewrite list_elem_of_omap. split.
  - intros ([n [c' |]] & Hin & Heq); simpl in Heq; [| discriminate].
    injection Heq as -> ->. exact (proj1 (elem_of_sort_by_name _ _) Hin).
  - intros Hin. exists (name, AClass c). split; [| reflexivity].
    exact (proj2 (elem_of_sort_by_name _ _) Hin).
Qed.

Lemma elem_of_scorers_in (module : list (string * member)) (name : string) (c : class) :
  (name, c) ∈ scorers_in module <->
  (name, AClass c) ∈ module /\ c <> Scorer /\ issubclass c Scorer = true.
Proof.
  unfold scorers_in. rewrite list_elem_of_filter, elem_of_getmembers_isclass.
  simpl. tauto.
Qed.

Lemma registry_of_snoc (scorers : list (string * class)) (x : string * class) :
  registry_of (scorers ++ [x]) = <[registry_key x.1 := x.2]> (registry_of scorers).
Proof. unfold registry_of. now rewrite foldl_app. Qed.

Lemma registry_of_lookup_Some (scorers : list (string * class))
    (key : string) (c : class) :
  registry_of scorers !! key = Some c ->
  exists name : string, (name, c) ∈ scorers /\ key = registry_key name.
Proof.
  induction scorers as [| [n c'] scorers IH] using rev_ind.
  - unfold registry_of. simpl. rewrite lookup_empty. discriminate.
  - rewrite registry_of_snoc. simpl. intros H.
    apply lookup_insert_Some in H as [[<- <-] | [Hne H]].
    + exists n. split; [| reflexivity]. apply elem_of_app. right.
      now apply list_elem_of_singleton.
    + destruct (IH H) as (name & Hin & ->). exists name.
      split; [| reflexivity]. apply elem_of_app. now left.
Qed.

(** X12. Whatever the module binds, a class the registry returns is one the
    module binds under a name the key derives from, is not [Scorer]
    itself and is a subclass of [Scorer]: names bound to anything but a
    class, [Scorer], and classes outside its hierarchy (the weights, [ABC])
    never show up. *)
Theorem registry_holds_only_strict_subclasses_of_Scorer
    (module : list (string * member)) (key : string) (c : class) :
  get_scorers_in module !! key = Some c ->
  exists name : string,
    (name, AClass c) ∈ module /\ key = registry_key name /\
    c <> Scorer /\ issubclass c Scorer = true.
Proof.
  intros H. apply registry_of_lookup_Some in H as (name & Hin & ->).
  apply elem_of_scorers_in in Hin as (Hin & Hne & Hsub).
  exists name. auto.
Qed.

Lemma registry_holds_only_strict_subclasses_of_Scorer_witness :
  exists name : string,
    (name, AClass ScorerLite) ∈ module_with_ScorerLite /\ "Lite" = registry_key name /\
    ScorerLite <> Scorer /\ issubclass ScorerLite Scorer = true.
Proof.
  apply (registry_holds_only_strict_subclasses_of_Scorer module_with_ScorerLite).
  vm_compute. reflexivity.
Defined.

(** X13. When no two retained names give the same key, looking a retained
    class up under the key of its name gives that class back. *)
Theorem registry_lookup_returns_the_class
    (module : list (string * member)) (name : string) (c : class) :
  NoDup ((fun scorer => registry_key scorer.1) <$> scorers_in module) ->
  (name, AClass c) ∈ module -> c <> Scorer -> issubclass c Scorer = true ->
  get_scorers_in module !! registry_key name = Some c.
Proof.
  intros Hnodup Hin Hne Hsub.
  assert ((name, c) ∈ scorers_in module) as Hs by (apply elem_of_scorers_in; auto).
  clear Hin Hne Hsub. unfold get_scorers_in.
  induction (scorers_in module) as [| [n c'] scorers IH] using rev_ind.
  - now apply elem_of_nil in Hs.
  - rewrite registry_of_snoc. simpl.
    rewrite fmap_app in Hnodup. apply NoDup_app in Hnodup as (Hnd & Hfresh & _).
    apply elem_of_app in Hs as [Hs | Hs].
    + rewrite lookup_insert_ne; [now apply IH |].
      intros Heq. apply (Hfresh (registry_key name)).
      * apply list_elem_of_fmap. now exists (name, c).
      * simpl. rewrite <- Heq. now apply list_elem_of_singleton.
    + apply list_elem_of_singleton in Hs. injection Hs as -> ->.
      apply lookup_insert_eq.
Qed.

Lemma registry_lookup_returns_the_class_witness :
  get_scorers_in module_with_ScorerLite !! registry_key "ScorerLite" = Some ScorerLite.
Proof.
  apply (registry_lookup_returns_the_class module_with_ScorerLite).
  - apply (bool_decide_unpack _). vm_compute. reflexivity.
  - apply (bool_decide_unpack _). vm_compute. reflexivity.
  - discriminate.
  - vm_compute. reflexivity.
Defined.

(** X14. Every strategy [get_scorers()] returns can be applied to a post
    of the data model whose counters are below [2^64] and whose follower
    count converts to a float, and gives a number that is not negative. *)
Theorem every_registered_strategy_scores
    (p : ScoredPost) (c : counters) (key : string) (cls : class) :
  assumed_data_model p = Some c ->
  three_counters_fit c = true ->
  followers_fit c = true ->
  get_scorers !! key = Some cls ->
  exists x : R, result_of (score cls) p = Return (PyNum x) /\ (0 <= x)%R.
Proof.
  intros H H3fit Hnfit Hkey.
  assert (two_counters_fit c = true) as H2fit
      by (unfold three_counters_fit in H3fit; now apply andb_prop in H3fit).
  pose proof (data_model_fields p c H) as (_ & _ & _ & _ & _ & _ & _ & Hn).
  pose proof (inverse_follower_range _ Hn) as Hw.
  pose proof (geometric_mean_nonneg
                [IZR (reblogs_count c); IZR (favourites_count c)]) as G2.
  pose proof (geometric_mean_nonneg
                [IZR (reblogs_count c); IZR (favourites_count c);
                 IZR (replies_count c)]) as G3.
  fold (mean2 c) in G2. fold (mean3 c) in G3.
  rewrite get_scorers_value in Hkey. unfold result_of.
  repeat (apply lookup_insert_Some in Hkey as [[_ <-] | [_ Hkey]];
          [first [ rewrite (run_SimpleScorer p c H)
                 | rewrite (run_SimpleWeightedScorer p c H)
                 | rewrite (run_ExtendedSimpleScorer p c H)
                 | rewrite (run_ExtendedSimpleWeightedScorer p c H) ];
           rewrite ?H2fit, ?H3fit, ?Hnfit; eexists; split; [reflexivity | nra] |]).
  rewrite lookup_empty in Hkey. discriminate Hkey.
Qed.

Lemma every_registered_strategy_scores_witness :
  exists x : R,
    result_of (score ExtendedSimpleWeightedScorer) example_post = Return (PyNum x) /\
    (0 <= x)%R.
Proof.
  apply (every_registered_strategy_scores example_post example_counters
           "ExtendedSimpleWeighted").
  - vm_compute. reflexivity.
  - vm_compute. reflexivity.
  - vm_compute. reflexivity.
  - vm_compute. reflexivity.
Defined.

(** ** When a score is 0 *)

Lemma nth_root_eq_0 (n : nat) (x : R) : nth_root n x = 0%R -> x = 0%R.
Proof.
  unfold nth_root. destruct (Req_dec_T x 0) as [Hx | Hx]; [auto |].
  intros H. pose proof (exp_pos (ln x / INR n)). lra.
Qed.

Lemma inverse_follower_eq_0 (n : Z) :
  (0 <= n)%Z -> inverse_follower n = 0%R -> n = 0%Z.
Proof.
  intros Hn. unfold inverse_follower.
  destruct (n =? 0)%Z eqn:Hz; [now apply Z.eqb_eq in Hz |].
  apply Z.eqb_neq in Hz. intros H.
  pose proof (sqrt_pos_int n ltac:(lia)) as Hs.
  assert (0 < 1 / sqrt (IZR n))%R by (apply Rdiv_lt_0_compat; lra). lra.
Qed.

(** X15. The converse of zero propagation: on a post of the data model an
    unweighted score is 0 only if one of its counters is 0, and a
    weighted score is 0 only if one of its counters or the follower
    count is 0. *)
Theorem zero_score_needs_a_zero (p : ScoredPost) (c : counters) :
  assumed_data_model p = Some c ->
  (result_of (score SimpleScorer) p = Return (PyNum 0) ->
   reblogs_count c = 0 \/ favourites_count c = 0)%Z /\
  (result_of (score SimpleWeightedScorer) p = Return (PyNum 0) ->
   reblogs_count c = 0 \/ favourites_count c = 0 \/ followers_count c = 0)%Z /\
  (result_of (score ExtendedSimpleScorer) p = Return (PyNum 0) ->
   reblogs_count c = 0 \/ favourites_count c = 0 \/ replies_count c = 0)%Z /\
  (result_of (score ExtendedSimpleWeightedScorer) p = Return (PyNum 0) ->
   reblogs_count c = 0 \/ favourites_count c = 0 \/ replies_count c = 0 \/
   followers_count c = 0)%Z.
Proof.
  intros H.
  pose proof (data_model_fields p c H) as (_ & _ & _ & _ & _ & _ & _ & Hn).
  assert (forall x : Z, IZR x = 0%R -> x = 0%Z) as Hint by (intros x; apply eq_IZR_R0).
  assert (mean2 c = 0%R -> reblogs_count c = 0 \/ favourites_count c = 0)%Z as H2.
  { intros Hm. apply nth_root_eq_0 in Hm. simpl in Hm.
    rewrite Rmult_1_r in Hm. apply Rmult_integral in Hm as [Hm | Hm]; auto. }
  assert (mean3 c = 0%R ->
          reblogs_count c = 0 \/ favourites_count c = 0 \/ replies_count c = 0)%Z as H3.
  { intros Hm. apply nth_root_eq_0 in Hm. simpl in Hm.
    rewrite Rmult_1_r in Hm.
    apply Rmult_integral in Hm as [Hm | Hm]; auto.
    apply Rmult_integral in Hm as [Hm | Hm]; auto. }
  unfold result_of.
  rewrite (run_SimpleScorer p c H), (run_SimpleWeightedScorer p c H),
    (run_ExtendedSimpleScorer p c H), (run_ExtendedSimpleWeightedScorer p c H).
  destruct (two_counters_fit c), (three_counters_fit c), (followers_fit c);
    cbn [fst]; (split; [| split; [| split]]); intros Hz;
    try discriminate Hz; injection Hz as Hz.
  all: try (apply H2; lra); try (apply H3; lra).
  all: apply Rmult_integral in Hz as [Hz | Hz];
    [ first [ destruct H2 as [? | ?]; [lra | auto | auto]
            | destruct H3 as [? | [? | ?]]; [lra | auto | auto | auto] ]
    | apply inverse_follower_eq_0 in Hz; auto ].
Qed.

Lemma zero_score_needs_a_zero_witness : (4 = 0 \/ 9 = 0 \/ 0 = 0)%Z.
Proof.
  assert (assumed_data_model (post_of 4 9 16 0) =
          Some {| reblogs_count := 4; favourites_count := 9;
                  replies_count := 16; followers_count := 0 |}) as H
      by (vm_compute; reflexivity).
  apply (zero_score_needs_a_zero _ _ H).
  unfold result_of. rewrite (run_SimpleWeightedScorer _ _ H).
  unfold inverse_follower. simpl. now rewrite Rmult_0_r.
Defined.

(** ** The class hierarchy *)

(** X17. The classes of [scorers.py] have a consistent linearisation: the
    resolution order of each starts with the class, lists no class twice,
    keeps the bases in the order the [class] statement gives them, and
    keeps the resolution order of every base.  In particular a weighted
    strategy finds [InverseFollowerWeight] before its unweighted base and
    that base before [UniformWeight]. *)
Theorem resolution_order_is_consistent (c : class) :
  in_source c = true ->
  head (mro c) = Some c /\
  NoDup (mro c) /\
  sublist (bases c) (mro c) /\
  (forall b : class, b ∈ bases c -> sublist (mro b) (mro c)).
Proof.
  intros Hsrc.
  destruct c; try discriminate Hsrc; clear Hsrc;
    (split; [vm_compute; reflexivity |]);
    (split; [apply (bool_decide_unpack _); vm_compute; reflexivity |]);
    (split; [| intros b Hb; cbn [bases] in Hb;
               rewrite ?elem_of_cons, elem_of_nil in Hb;
               repeat (destruct Hb as [-> | Hb]); try contradiction]).
  all: match goal with
       | |- sublist ?l ?k =>
           let l' := eval vm_compute in l in
           let k' := eval vm_compute in k in
           change (sublist l' k')
       end.
  all: repeat first [ apply sublist_nil | apply sublist_skip | apply sublist_cons ].
Qed.

Lemma resolution_order_is_consistent_witness :
  head (mro SimpleWeightedScorer) = Some SimpleWeightedScorer /\
  NoDup (mro SimpleWeightedScorer) /\
  sublist (bases SimpleWeightedScorer) (mro SimpleWeightedScorer) /\
  (forall b : class,
      b ∈ bases SimpleWeightedScorer -> sublist (mro b) (mro SimpleWeightedScorer)).
Proof.
  apply (resolution_order_is_consistent SimpleWeightedScorer). reflexivity.
Defined.

(** ** Integers out of range *)

(** X18. On a post of the data model, a counter of [2^64] or more among
    those a strategy aggregates makes its [score] raise [TypeError],
    whatever the follower count; a follower count that does not convert
    to a float makes [InverseFollowerWeight.weight] raise
    [OverflowError], and so the weighted strategies whose counters are
    below [2^64]. *)
Theorem out_of_range_integers_raise (p : ScoredPost) (c : counters) :
  assumed_data_model p = Some c ->
  (two_counters_fit c = false ->
   result_of (score SimpleScorer) p = Raise TypeError /\
   result_of (score SimpleWeightedScorer) p = Raise TypeError) /\
  (three_counters_fit c = false ->
   result_of (score ExtendedSimpleScorer) p = Raise TypeError /\
   result_of (score ExtendedSimpleWeightedScorer) p = Raise TypeError) /\
  (followers_fit c = false ->
   result_of (weight InverseFollowerWeight) p = Raise OverflowError /\
   (two_counters_fit c = true ->
    result_of (score SimpleWeightedScorer) p = Raise OverflowError) /\
   (three_counters_fit c = true ->
    result_of (score ExtendedSimpleWeightedScorer) p = Raise OverflowError)).
Proof.
  intros H. unfold result_of.
  rewrite weight_InverseFollowerWeight, (run_InverseFollowerWeight p c H).
  rewrite (run_SimpleScorer p c H), (run_SimpleWeightedScorer p c H),
    (run_ExtendedSimpleScorer p c H), (run_ExtendedSimpleWeightedScorer p c H).
  split; [| split].
  - intros ->. split; reflexivity.
  - intros ->. split; reflexivity.
  - intros ->. split; [reflexivity |]. split; intros ->; reflexivity.
Qed.

Lemma out_of_range_integers_raise_witness :
  result_of (score SimpleScorer) post_with_huge_counter = Raise TypeError /\
  result_of (score SimpleWeightedScorer) post_with_huge_counter = Raise TypeError.
Proof.
  apply (out_of_range_integers_raise post_with_huge_counter
           {| reblogs_count := 2 ^ 64; favourites_count := 9;
              replies_count := 16; followers_count := 100 |}).
  - vm_compute. reflexivity.
  - vm_compute. reflexivity.
Defined.
